(** * Social-network application: persistence layer and request handlers

    A shallow embedding of [app/database.py] (class [SQLite3]) and
    [app/routes.py] (the Flask view functions), followed by the properties
    of the specification that concern them.

    - SQL tables are lists of rows, in insertion order.
    - A view function is a computation over a [World] (the store, the
      server clock, the flashed messages, the files written) that either
      returns a response or raises a Python exception; the effects made
      before an exception stay, since every statement commits at once.
    - What lies outside the sources (the password hasher, the file system,
      [len] and [str.isalnum] on Unicode text) is a parameter. *)

From Stdlib Require Import String Ascii List ZArith Lia Bool.
From Stdlib Require Import Sorting.Sorted Sorting.Permutation.
Import ListNotations.
Local Open Scope string_scope.
Local Open Scope Z_scope.

(* ===================================================================== *)
(** ** Python strings and [html.escape] *)
(* ===================================================================== *)

Module Html.

(** The five characters [html.escape] rewrites. *)
Definition amp : ascii := Ascii.ascii_of_nat 38.
Definition lt : ascii := Ascii.ascii_of_nat 60.
Definition gt : ascii := Ascii.ascii_of_nat 62.
Definition dquote : ascii := Ascii.ascii_of_nat 34.
Definition squote : ascii := Ascii.ascii_of_nat 39.

(** [s.replace(c, r)] for a one-character pattern [c]. *)
Fixpoint replace (c : ascii) (r : string) (s : string) : string :=
  match s with
  | EmptyString => EmptyString
  | String a s' =>
      if Ascii.eqb a c then r ++ replace c r s'
      else String a (replace c r s')
  end.

(** [html.escape(s, quote)]: the ampersand first, then the angle brackets,
    then, when [quote] is set, both quote characters. *)
Definition escape_quote (quote : bool) (s : string) : string :=
  let s := replace amp "&amp;" s in
  let s := replace lt "&lt;" s in
  let s := replace gt "&gt;" s in
  if quote then
    let s := replace dquote "&quot;" s in
    let s := replace squote "&#x27;" s in
    s
  else s.

(** [html.escape(s)]; [quote] defaults to [True]. *)
Definition escape (s : string) : string := escape_quote true s.

(** What one character becomes under [escape]. *)
Definition escape_char (a : ascii) : string := escape (String a EmptyString).

(** The characters that can open a tag or close an attribute value. *)
Definition markup_char (a : ascii) : bool :=
  Ascii.eqb a lt || Ascii.eqb a gt || Ascii.eqb a dquote || Ascii.eqb a squote.

Fixpoint has_markup (s : string) : bool :=
  match s with
  | EmptyString => false
  | String a s' => markup_char a || has_markup s'
  end.

End Html.

(* ===================================================================== *)
(** ** The relational store *)
(* ===================================================================== *)

Module Store.

(** A row of [Users]. The six profile columns are nullable. *)
Record User := mkUser {
  id : Z;
  username : string;
  first_name : string;
  last_name : string;
  password : string;
  education : option string;
  employment : option string;
  music : option string;
  movie : option string;
  nationality : option string;
  birthday : option string
}.

(** A row of [Posts]. [creation_time] is the value of [CURRENT_TIMESTAMP]
    at the insert, counted in seconds; SQLite keeps it as the text
    [YYYY-MM-DD HH:MM:SS], whose order is the order of the seconds. *)
Record Post := mkPost {
  p_id : Z;
  p_u_id : Z;
  content : string;
  image : string;
  p_creation_time : Z
}.

(** A row of [Comments]. *)
Record Comment := mkComment {
  c_id : Z;
  c_p_id : Z;
  c_u_id : Z;
  comment : string;
  c_creation_time : Z
}.

(** A row of [Friends]: the directed edge [u_id -> f_id]. *)
Record Friend := mkFriend {
  u_id : Z;
  f_id : Z
}.

Record DB := mkDB {
  Users : list User;
  Posts : list Post;
  Comments : list Comment;
  Friends : list Friend
}.

(** Modelled from the spec: the schema file is not part of the sources.
    The spec gives [Users(id, username UNIQUE, ...)] with generated ids and
    optional profile fields; what the code depends on is whether the store
    enforces the uniqueness of [username] and what a profile column holds
    in a fresh row. *)
Record Schema := mkSchema {
  username_unique : bool;
  profile_default : option string
}.

Definition spec_schema : Schema :=
  {| username_unique := true; profile_default := None |}.

(** The key an [INTEGER PRIMARY KEY] column gets at an insert: one more
    than the largest key in the table, 1 in an empty table. *)
Definition fresh_id (ids : list Z) : Z := 1 + fold_right Z.max 0 ids.

(** What a statement does: a result, or a Python exception. *)
Inductive Exn :=
| TypeError
| AttributeError
| IntegrityError
| OverflowError
| OSError.

Inductive Result (A : Type) :=
| Returned (a : A)
| Raised (e : Exn).
Arguments Returned {A} a.
Arguments Raised {A} e.

(** *** Queries *)

(** [SELECT * FROM Users WHERE username = ?] with [fetchone]. *)
Definition get_user (db : DB) (name : string) : option User :=
  find (fun u => String.eqb (username u) (Html.escape name)) (Users db).

(** [INSERT INTO Users (username, first_name, last_name, password)]. *)
Definition create_user (sch : Schema) (db : DB)
    (name first last pw : string) : Result (DB * Z) :=
  let name' := Html.escape name in
  if username_unique sch
     && existsb (fun u => String.eqb (username u) name') (Users db)
  then Raised IntegrityError
  else
    let d := profile_default sch in
    let row := mkUser (fresh_id (map id (Users db))) name'
                 (Html.escape first) (Html.escape last) (Html.escape pw)
                 d d d d d d in
    Returned (mkDB (Users db ++ [row]) (Posts db) (Comments db) (Friends db),
              1).

(** [INSERT INTO Posts (u_id, content, image, creation_time)] at time
    [now]. *)
Definition create_post (now : Z) (db : DB) (uid : Z) (text : string)
    (img : string) : DB * Z :=
  let sanitized_content := Html.escape_quote true text in
  let row := mkPost (fresh_id (map p_id (Posts db))) uid sanitized_content
               img now in
  (mkDB (Users db) (Posts db ++ [row]) (Comments db) (Friends db), 1).

(** The integers sqlite3 binds to a statement: those of 64 bits with a
    sign. Binding any other raises [OverflowError]. The ids the view
    functions read from rows are such integers; the post id of a URL is
    any natural number. *)
Definition int64 (n : Z) : bool := (- 2 ^ 63 <=? n) && (n <? 2 ^ 63).

(** [SELECT * FROM Posts AS p JOIN Users AS u ON p.u_id = u.id
     WHERE p.id = ?] with [fetchone]. *)
Definition get_post (db : DB) (post_id : Z) : Result (option (Post * User)) :=
  if int64 post_id then
    Returned
      (hd_error
         (filter (fun pu => p_id (fst pu) =? post_id)
            (flat_map
               (fun p => map (pair p)
                           (filter (fun u => p_u_id p =? id u) (Users db)))
               (Posts db))))
  else Raised OverflowError.

(** A row of the feed: the post, its author, and the count [cc]. *)
Record FeedRow := mkFeedRow {
  row_post : Post;
  row_user : User;
  cc : nat
}.

(** [ORDER BY ... DESC] on an integer key, as an insertion sort that keeps
    rows of equal key in the order they were produced. *)
Fixpoint insert_desc {A : Type} (key : A -> Z) (x : A) (l : list A) : list A :=
  match l with
  | [] => [x]
  | y :: l' =>
      if key y <=? key x then x :: y :: l'
      else y :: insert_desc key x l'
  end.

Fixpoint order_by_desc {A : Type} (key : A -> Z) (l : list A) : list A :=
  match l with
  | [] => []
  | x :: l' => insert_desc key x (order_by_desc key l')
  end.

(** The [WHERE] clause of the feed query, on the author [a] of a post. *)
Definition feed_where (db : DB) (user_id : Z) (a : Z) : bool :=
  existsb (Z.eqb a)
    (map u_id (filter (fun f => f_id f =? user_id) (Friends db)))
  || existsb (Z.eqb a)
       (map f_id (filter (fun f => u_id f =? user_id) (Friends db)))
  || (a =? user_id).

(** [(SELECT COUNT( * ) FROM Comments WHERE p_id = p.id)]. *)
Definition comment_count (db : DB) (post_id : Z) : nat :=
  length (filter (fun c => c_p_id c =? post_id) (Comments db)).

(** The feed query of [get_posts]. *)
Definition get_posts (db : DB) (user_id : Z) : list FeedRow :=
  let joined :=
    flat_map
      (fun p => map (pair p) (filter (fun u => id u =? p_u_id p) (Users db)))
      (Posts db) in
  let selected :=
    filter (fun pu => feed_where db user_id (p_u_id (fst pu))) joined in
  let rows :=
    map (fun pu => mkFeedRow (fst pu) (snd pu) (comment_count db (p_id (fst pu))))
      selected in
  order_by_desc (fun r => p_creation_time (row_post r)) rows.

(** [INSERT INTO Comments (p_id, u_id, comment, creation_time)]. *)
Definition create_comment (now : Z) (db : DB) (post_id user_id : Z)
    (text : string) : Result (DB * Z) :=
  if int64 post_id then
    let row := mkComment (fresh_id (map c_id (Comments db))) post_id user_id
                 (Html.escape text) now in
    Returned (mkDB (Users db) (Posts db) (Comments db ++ [row]) (Friends db),
              1)
  else Raised OverflowError.

(** Equality of rows, for [SELECT DISTINCT]. *)
Definition User_eq_dec (x y : User) : {x = y} + {x <> y}.
Proof.
  repeat decide equality; try apply Z.eq_dec; apply string_dec.
Defined.

Definition Comment_eq_dec (x y : Comment) : {x = y} + {x <> y}.
Proof.
  decide equality; try apply Z.eq_dec; apply string_dec.
Defined.

Definition joined_eq_dec (x y : Comment * User) : {x = y} + {x <> y}.
Proof.
  decide equality; [apply User_eq_dec | apply Comment_eq_dec].
Defined.

(** [SELECT DISTINCT * FROM Comments AS c JOIN Users AS u ON c.u_id = u.id
     WHERE c.p_id = ? ORDER BY c.creation_time DESC]. *)
Definition get_comments (db : DB) (post_id : Z) : list (Comment * User) :=
  let joined :=
    flat_map
      (fun c => map (pair c) (filter (fun u => c_u_id c =? id u) (Users db)))
      (Comments db) in
  let selected := filter (fun cu => c_p_id (fst cu) =? post_id) joined in
  order_by_desc (fun cu => c_creation_time (fst cu))
    (nodup joined_eq_dec selected).

(** [SELECT f_id FROM Friends WHERE u_id = ?]. *)
Definition get_friend (db : DB) (user_id : Z) : list Z :=
  map f_id (filter (fun f => u_id f =? user_id) (Friends db)).

(** [SELECT u.* FROM Friends AS f JOIN Users AS u ON f.f_id = u.id
     WHERE f.u_id = ? AND f.f_id != ?]. The statement has no [ORDER BY]:
    the rows come in an order SQLite is free to choose, here the order of
    the edges. What is proved of the result does not depend on it. *)
Definition get_friends (db : DB) (user_id : Z) : list User :=
  map snd
    (filter
       (fun fu => (u_id (fst fu) =? user_id)
                  && negb (f_id (fst fu) =? user_id))
       (flat_map
          (fun f => map (pair f) (filter (fun u => f_id f =? id u) (Users db)))
          (Friends db))).

(** [INSERT INTO Friends (u_id, f_id) VALUES (?, ?)]. The connection never
    turns foreign-key enforcement on, and the callers insert an edge only
    when [get_friend] does not list it, so the insert goes through. *)
Definition create_friend (db : DB) (user_id friend_id : Z) : DB * Z :=
  (mkDB (Users db) (Posts db) (Comments db)
     (Friends db ++ [mkFriend user_id friend_id]), 1).

(** The [SET] clause of [update_profile] on one row. *)
Definition set_profile (e m mu mo n b : string) (u : User) : User :=
  mkUser (id u) (username u) (first_name u) (last_name u) (password u)
    (Some e) (Some m) (Some mu) (Some mo) (Some n) (Some b).

(** [UPDATE Users SET education=?, employment=?, music=?, movie=?,
     nationality=?, birthday=? WHERE username=?]; the second component is
    [cursor.rowcount]. *)
Definition update_profile (db : DB)
    (name education employment music movie nationality birthday : string)
    : DB * Z :=
  let hit u := String.eqb (username u) (Html.escape name) in
  let set := set_profile (Html.escape education) (Html.escape employment)
               (Html.escape music) (Html.escape movie)
               (Html.escape nationality) birthday in
  (mkDB (map (fun u => if hit u then set u else u) (Users db))
     (Posts db) (Comments db) (Friends db),
   Z.of_nat (length (filter hit (Users db)))).

End Store.

(* ===================================================================== *)
(** ** The view functions *)
(* ===================================================================== *)

Module Routes.
Import Store.

(** What a view function can touch besides its arguments: the store, the
    server clock, the flashed messages, and the names of the files it has
    written. *)
Record World := mkWorld {
  db : DB;
  clock : Z;
  flashes : list (string * string);
  uploads : list string
}.

(** A computation of a view function: it changes the world and returns or
    raises. *)
Definition M (A : Type) : Type := World -> World * Result A.

Definition ret {A} (a : A) : M A := fun w => (w, Returned a).

Definition raise {A} (e : Exn) : M A := fun w => (w, Raised e).

Definition bind {A B} (m : M A) (k : A -> M B) : M B :=
  fun w =>
    match m w with
    | (w', Returned a) => k a w'
    | (w', Raised e) => (w', Raised e)
    end.

Declare Scope route_scope.
Delimit Scope route_scope with route.
Notation "x <- m ;; k" := (bind m (fun x => k))
  (at level 61, m at next level, right associativity) : route_scope.
Notation "m ;;; k" := (bind m (fun _ => k))
  (at level 61, right associativity) : route_scope.
Local Open Scope route_scope.

Definition with_db (w : World) (d : DB) : World :=
  mkWorld d (clock w) (flashes w) (uploads w).

(** A read of the store. *)
Definition query {A} (q : DB -> A) : M A := fun w => (w, Returned (q (db w))).

(** A write to the store, committed at once; the value is the row count. *)
Definition execute (q : DB -> DB * Z) : M Z :=
  fun w => let (d, n) := q (db w) in (with_db w d, Returned n).

(** A write that reads [CURRENT_TIMESTAMP]. *)
Definition execute_now (q : Z -> DB -> DB * Z) : M Z :=
  fun w => let (d, n) := q (clock w) (db w) in (with_db w d, Returned n).

(** A read that can raise. *)
Definition fetch {A} (q : DB -> Result A) : M A := fun w => (w, q (db w)).

(** A write that reads [CURRENT_TIMESTAMP] and can raise; nothing is
    written when it does. *)
Definition try_execute_now (q : Z -> DB -> Result (DB * Z)) : M Z :=
  fun w =>
    match q (clock w) (db w) with
    | Returned (d, n) => (with_db w d, Returned n)
    | Raised e => (w, Raised e)
    end.

(** [flash(message, category=...)]. *)
Definition flash (message category : string) : M unit :=
  fun w => (mkWorld (db w) (clock w) (flashes w ++ [(message, category)])
              (uploads w), Returned tt).

(** [user["id"]] on the result of [get_user]: subscripting [None] is a
    [TypeError]. *)
Definition user_id (user : option User) : M Z :=
  match user with
  | Some u => ret (id u)
  | None => raise TypeError
  end.

(** An uploaded file as the handler uses it: its name. Like werkzeug's
    [FileStorage], it is true when the name is not empty. *)
Record FileStorage := mkFileStorage { filename : string }.

(** [post_form.image.data]: a file, or [None] when the request carries no
    such part. *)
Definition truthy (f : option FileStorage) : bool :=
  match f with
  | Some fs => negb (String.eqb (filename fs) "")
  | None => false
  end.

(** [post_form.image.data.filename]: an attribute of [None] is an
    [AttributeError]. *)
Definition file_name (f : option FileStorage) : M string :=
  match f with
  | Some fs => ret (filename fs)
  | None => raise AttributeError
  end.

(** What the file system does with the write of an uploaded file. The
    path is the uploads folder joined with the name the client gave, so
    the write can raise (no such folder, a folder of that name, no
    permission) and, the database file lying in the same instance folder,
    can replace the store. [write fs d] is the store the write leaves and
    how the write ended. *)
Definition Disk : Type := FileStorage -> DB -> DB * Result unit.

(** [post_form.image.data.save(path)], with [path] in the uploads folder. *)
Definition save (write : Disk) (f : option FileStorage) : M unit :=
  match f with
  | Some fs =>
      fun w =>
        match write fs (db w) with
        | (d, Returned _) =>
            (mkWorld d (clock w) (flashes w) (uploads w ++ [filename fs]),
             Returned tt)
        | (d, Raised e) =>
            (mkWorld d (clock w) (flashes w) (uploads w), Raised e)
        end
  | None => raise AttributeError
  end.

(** What a view function answers. The form object handed to a template is
    the one the request came with, and is left out. *)
Inductive View :=
| IndexView
| StreamView (username : string) (posts : list FeedRow)
| CommentsView (username : string) (post : option (Post * User))
    (comments : list (Comment * User))
| FriendsView (username : string) (friends : list User)
| ProfileView (username : string) (user : option User).

Inductive Response :=
| Redirect (endpoint : string) (username : option string)
| Render (template : string) (view : View).

(** The forms of [app.forms], as the view functions read them: the
    outcome of the validation and the data of each field. *)
Record LoginForm := mkLoginForm {
  login_is_submitted : bool;
  login_submit : bool;
  login_validate_on_submit : bool;
  login_username : string;
  login_password : string
}.

Record RegisterForm := mkRegisterForm {
  register_is_submitted : bool;
  register_submit : bool;
  register_validate_on_submit : bool;
  register_username : string;
  register_first_name : string;
  register_last_name : string;
  register_password : string;
  register_errors : list string
}.

Record IndexForm := mkIndexForm {
  request_method : string;
  login : LoginForm;
  register : RegisterForm
}.

Record PostForm := mkPostForm {
  post_validate_on_submit : bool;
  post_content : string;
  post_image : option FileStorage
}.

Record CommentsForm := mkCommentsForm {
  comments_validate_on_submit : bool;
  comments_comment : string
}.

Record FriendsForm := mkFriendsForm {
  friends_validate_on_submit : bool;
  friends_username : string
}.

Record ProfileForm := mkProfileForm {
  profile_validate_on_submit : bool;
  profile_education : string;
  profile_employment : string;
  profile_music : string;
  profile_movie : string;
  profile_nationality : string;
  profile_birthday : string
}.

(** [key in form.errors]. *)
Definition has_error (key : string) (errors : list string) : bool :=
  existsb (String.eqb key) errors.

(** ["\n".join(messages)]. *)
Definition join_lines (messages : list string) : string :=
  String.concat (String (ascii_of_nat 10) EmptyString) messages.

(** The messages the index page collects for a register form that failed
    its validation. [len] and [isalnum] are Python's [len] and
    [str.isalnum] on the text of the field, which count and classify
    Unicode code points. *)
Definition register_error_messages (len : string -> nat)
    (isalnum : string -> bool) (f : RegisterForm) : list string :=
  let errors := register_errors f in
  (if has_error "first_name" errors
   then ["First Name field is required."] else [])
  ++ (if has_error "last_name" errors
      then ["Last Name field is required."] else [])
  ++ (if has_error "password" errors
      then ["Password field is required."] else [])
  ++ (if has_error "username" errors
      then [if (len (register_username f) <? 4)%nat
            then "Username must be at least 4 characters long."
            else if negb (isalnum (register_username f))
            then "Username must contain only letters and numbers."
            else "Username field is required."]
      else [])
  ++ (if has_error "confirm_password" errors
      then ["Passwords must match"] else []).

Section Handlers.

(** The schema the store was created with, the two operations of the
    password hasher, and Python's [len] and [str.isalnum]. *)
Variable schema : Schema.
Variable generate_password_hash : string -> string.
Variable check_password_hash : string -> string -> bool.
Variable len : string -> nat.
Variable isalnum : string -> bool.

(** [sqlite.create_user], whose insert can raise. *)
Definition run_create_user (name first last pw : string) : M Z :=
  fun w =>
    match create_user schema (db w) name first last pw with
    | Returned (d, n) => (with_db w d, Returned n)
    | Raised e => (w, Raised e)
    end.

(** The body of [index] up to the final [render_template]: [Some r] when
    the function has returned [r] on the way. *)
Definition index_body (form : IndexForm) : M (option Response) :=
  let login_form := login form in
  let register_form := register form in
  if String.eqb (request_method form) "POST" then
    if login_is_submitted login_form && login_submit login_form then
      if login_validate_on_submit login_form then
        user <- query (fun d => get_user d (login_username login_form)) ;;
        match user with
        | None =>
            flash "Sorry, username or password is not valid!" "warning" ;;;
            ret None
        | Some u =>
            if negb (check_password_hash (password u)
                       (Html.escape (login_password login_form)))
            then
              flash "Sorry, username or password is not valid!" "warning" ;;;
              ret None
            else if check_password_hash (password u)
                      (Html.escape (login_password login_form))
            then ret (Some (Redirect "stream"
                              (Some (login_username login_form))))
            else ret None
        end
      else
        flash "Login form data is not valid or Empty, The fields in question is:"
          "warning" ;;;
        ret None
    else if register_is_submitted register_form
            && register_submit register_form then
      if register_validate_on_submit register_form then
        let hashed_password :=
          generate_password_hash (register_password register_form) in
        response <- run_create_user (register_username register_form)
                      (register_first_name register_form)
                      (register_last_name register_form) hashed_password ;;
        if response =? 1 then
          flash "User successfully created!" "success" ;;;
          ret (Some (Redirect "index" None))
        else
          flash "Somthing went wrong, user was not created!" "warning" ;;;
          ret None
      else
        flash (join_lines
                 (register_error_messages len isalnum register_form))
          "warning" ;;;
        ret None
    else ret None
  else ret None.

Definition index (form : IndexForm) : M Response :=
  early <- index_body form ;;
  match early with
  | Some r => ret r
  | None => ret (Render "index.html.j2" IndexView)
  end.

End Handlers.

(** [stream(username)], on a file system [write]. *)
Definition stream (write : Disk) (username : string) (post_form : PostForm)
    : M Response :=
  user <- query (fun d => get_user d username) ;;
  if post_validate_on_submit post_form then
    (if truthy (post_image post_form)
     then save write (post_image post_form) else ret tt) ;;;
    uid <- user_id user ;;
    name <- file_name (post_image post_form) ;;
    execute_now (fun now d => create_post now d uid (post_content post_form)
                                name) ;;;
    ret (Redirect "stream" (Some username))
  else
    uid <- user_id user ;;
    posts <- query (fun d => get_posts d uid) ;;
    ret (Render "stream.html.j2" (StreamView username posts)).

(** [comments(username, post_id)]. *)
Definition comments (username : string) (post_id : Z)
    (comments_form : CommentsForm) : M Response :=
  user <- query (fun d => get_user d username) ;;
  (if comments_validate_on_submit comments_form then
     uid <- user_id user ;;
     try_execute_now (fun now d => create_comment now d post_id uid
                                     (comments_comment comments_form)) ;;;
     ret tt
   else ret tt) ;;;
  post <- fetch (fun d => get_post d post_id) ;;
  comments <- query (fun d => get_comments d post_id) ;;
  ret (Render "comments.html.j2" (CommentsView username post comments)).

(** [friends(username)]. *)
Definition friends (username : string) (friends_form : FriendsForm)
    : M Response :=
  user <- query (fun d => get_user d username) ;;
  (if friends_validate_on_submit friends_form then
     friend <- query (fun d => get_user d (friends_username friends_form)) ;;
     uid <- user_id user ;;
     friends <- query (fun d => get_friend d uid) ;;
     match friend with
     | None => flash "User does not exist!" "warning"
     | Some fr =>
         if id fr =? uid then
           flash "You cannot be friends with yourself!" "warning"
         else if existsb (Z.eqb (id fr)) friends then
           flash "You are already friends with this user!" "warning"
         else
           execute (fun d => create_friend d uid (id fr)) ;;;
           flash "Friend successfully added!" "success"
     end
   else ret tt) ;;;
  uid <- user_id user ;;
  friends <- query (fun d => get_friends d uid) ;;
  ret (Render "friends.html.j2" (FriendsView username friends)).

(** [profile(username)]. *)
Definition profile (username : string) (profile_form : ProfileForm)
    : M Response :=
  user <- query (fun d => get_user d username) ;;
  if profile_validate_on_submit profile_form then
    execute (fun d => update_profile d username
                        (profile_education profile_form)
                        (profile_employment profile_form)
                        (profile_music profile_form)
                        (profile_movie profile_form)
                        (profile_nationality profile_form)
                        (profile_birthday profile_form)) ;;;
    ret (Redirect "profile" (Some username))
  else
    ret (Render "profile.html.j2" (ProfileView username user)).

End Routes.

(* ===================================================================== *)
(** ** Notions the properties are stated with *)
(* ===================================================================== *)

Module Props.
Import Store Routes.

(** Text without any of the five characters [html.escape] rewrites. *)
Fixpoint plain (s : string) : bool :=
  match s with
  | EmptyString => true
  | String a s' =>
      negb (Html.markup_char a || Ascii.eqb a Html.amp) && plain s'
  end.

(** [b] may follow [a] in a listing that descends by [key]. *)
Definition desc {A : Type} (key : A -> Z) (a b : A) : Prop := key b <= key a.

Definition strict_desc {A : Type} (key : A -> Z) (a b : A) : Prop :=
  key b < key a.

(** The store keeps its keys: user ids are pairwise different and the
    author of every post is a user. *)
Definition store_ok (db : DB) : Prop :=
  NoDup (map id (Users db))
  /\ forall p, In p (Posts db) -> In (p_u_id p) (map id (Users db)).

(** [a] is [u], or a friendship edge joins the two in either direction. *)
Definition connected (db : DB) (u a : Z) : Prop :=
  a = u \/ In (mkFriend a u) (Friends db) \/ In (mkFriend u a) (Friends db).

(** The store [d] with the edge [u -> f] added and nothing else changed. *)
Definition with_edge (d : DB) (u f : Z) : DB :=
  mkDB (Users d) (Posts d) (Comments d) (Friends d ++ [mkFriend u f]).

(** The requester [a] may add the user named [target]: that user exists,
    is [f], is not [a], and [a] has no edge to [f] yet. *)
Definition may_befriend (d : DB) (a : User) (target : string) (f : User)
    : Prop :=
  get_user d target = Some f
  /\ id f <> id a
  /\ ~ In (mkFriend (id a) (id f)) (Friends d).

(** The rows a statement with [WHERE username = ?] selects. *)
Definition named (name : string) (u : User) : bool :=
  String.eqb (username u) (Html.escape name).

(** The world after one more flashed message. *)
Definition flashed (w : World) (message category : string) : World :=
  mkWorld (db w) (clock w) (flashes w ++ [(message, category)]) (uploads w).

(** The store after a write that can raise, started on [d]: the store
    the write made, or [d] when it raised. *)
Definition after (r : Result (DB * Z)) (d : DB) : DB :=
  match r with
  | Returned (d', _) => d'
  | Raised _ => d
  end.

(** A file system on which no write of an upload touches the store. *)
Definition leaves_store (write : Disk) : Prop :=
  forall fs d, fst (write fs d) = d.

(** The world after the write of the file [fs] that left the store [d]:
    the file is among the files written when the write returned. *)
Definition written (w : World) (fs : FileStorage) (d : DB) (done : bool)
    : World :=
  mkWorld d (clock w) (flashes w)
    (if done then uploads w ++ [filename fs] else uploads w).

(** A request that submits the login form, with data that validates. *)
Definition login_request (f : IndexForm) : bool :=
  String.eqb (request_method f) "POST"
  && login_is_submitted (login f)
  && login_submit (login f)
  && login_validate_on_submit (login f).

(** A request that submits the register form, with data that validates. *)
Definition register_request (f : IndexForm) : bool :=
  String.eqb (request_method f) "POST"
  && negb (login_is_submitted (login f) && login_submit (login f))
  && register_is_submitted (register f)
  && register_submit (register f)
  && register_validate_on_submit (register f).

(** No two rows of [Users] carry the same username. *)
Definition usernames_unique (d : DB) : Prop :=
  NoDup (map username (Users d)).

(** The store keeps its keys, and post ids are pairwise different. *)
Definition keys_ok (d : DB) : Prop :=
  store_ok d /\ NoDup (map p_id (Posts d)).

(** A row of the feed with one more comment counted, when it is the row of
    the post [post_id]. *)
Definition bump_cc (post_id : Z) (r : FeedRow) : FeedRow :=
  if p_id (row_post r) =? post_id
  then mkFeedRow (row_post r) (row_user r) (S (cc r))
  else r.

(** The columns of a user row that registration sets. *)
Definition account (u : User) : Z * string * string * string * string :=
  (id u, username u, first_name u, last_name u, password u).

(** [l'] is [l] with rows added at its end. *)
Definition grows {A : Type} (l l' : list A) : Prop :=
  exists more, l' = (l ++ more)%list.

(** The store [d'] holds all that [d] holds: the same accounts, posts,
    comments and edges, in the same places, and maybe more after them. *)
Definition extends (d d' : DB) : Prop :=
  grows (map account (Users d)) (map account (Users d'))
  /\ grows (Posts d) (Posts d')
  /\ grows (Comments d) (Comments d')
  /\ grows (Friends d) (Friends d').

End Props.

(* ===================================================================== *)
(** ** The extension object: set-up and connection *)
(* ===================================================================== *)

Module Extension.

(** The exceptions of [init_app] and [connection], those the file system
    and the schema script raise among them. *)
Inductive Error :=
| RuntimeError
| ValueError
| AttributeError
| OSError
| DatabaseError.

Inductive Outcome (A : Type) :=
| Done (a : A)
| Failed (e : Error).
Arguments Done {A} a.
Arguments Failed {A} e.

(** An argument of type [PathLike | str]: a string or a path object. *)
Inductive PathArg := Str (s : string) | PathObject (s : string).

(** [str(p)]. *)
Definition text (p : PathArg) : string :=
  match p with
  | Str s => s
  | PathObject s => s
  end.

(** The truth value of an optional argument: [None] and the empty string
    are false, a path object is true. *)
Definition given (p : option PathArg) : bool :=
  match p with
  | None => false
  | Some (Str s) => negb (String.eqb s "")
  | Some (PathObject _) => true
  end.

(** [p == ":memory:"], which holds for the string only. *)
Definition is_memory (p : option PathArg) : bool :=
  match p with
  | Some (Str s) => String.eqb s ":memory:"
  | _ => false
  end.

(** [Path(instance_path) / name], kept as its two operands. *)
Record Path := mkPath {
  instance : string;
  name : string
}.

(** The Flask application as [init_app] sees it: the [extensions]
    attribute, absent or a dictionary from names to extension objects, the
    configuration, the instance folder, and the functions registered for
    the teardown of a context. Extension objects are told apart by a
    number. *)
Record App := mkApp {
  extensions : option (list (string * nat));
  config : list (string * string);
  instance_path : string;
  teardown_appcontext : list nat
}.

(** The extension object: who it is, and its [_path] attribute once it is
    set. *)
Record SQLite3 := mkSQLite3 {
  self : nat;
  _path : option Path
}.

(** [key in d] and [d.get(key)] on a dictionary. *)
Definition contains {V : Type} (key : string) (d : list (string * V))
    : bool :=
  existsb (fun kv => String.eqb (fst kv) key) d.

Definition get {V : Type} (key : string) (d : list (string * V))
    : option V :=
  option_map snd (find (fun kv => String.eqb (fst kv) key) d).

(** The calls [init_app] makes to the file system and to the schema
    script. *)
Inductive Call :=
| Mkdir (parent_of : Path)
| InitDatabase (schema : string).

(** The machine [init_app] runs on: which paths are on the disk, whether
    the creation of the folder of a path raises, and whether the run of a
    schema script raises. *)
Record Host := mkHost {
  on_disk : Path -> bool;
  mkdir : Path -> option Error;
  init_database : string -> option Error
}.

(** What [init_app] leaves behind: the extension object, the application,
    the calls made, and how it ended. *)
Record Setup := mkSetup {
  object : SQLite3;
  application : App;
  calls : list Call;
  ended : Outcome unit
}.

(** The database path [init_app] settles on: under the instance folder,
    the path argument when it is given, else the configured path, else
    [sqlite3.db]. *)
Definition database_path (app : App) (path : option PathArg) : Path :=
  match path, given path with
  | Some a, true => mkPath (instance_path app) (text a)
  | _, _ =>
      match get "SQLITE3_DATABASE_PATH" (config app) with
      | Some c => mkPath (instance_path app) c
      | None => mkPath (instance_path app) "sqlite3.db"
      end
  end.

(** The schema script to run, when one is given. *)
Definition script (schema : option PathArg) : option string :=
  match schema, given schema with
  | Some s, true => Some (text s)
  | _, _ => None
  end.

(** [init_app(app, path=..., schema=...)]. *)
Definition init_app (host : Host) (this : SQLite3) (app : App)
    (path schema : option PathArg) : Setup :=
  let registered :=
    match extensions app with
    | Some e => e
    | None => []
    end in
  if negb (contains "sqlite3" registered) then
    let app1 :=
      mkApp (Some (registered ++ [("sqlite3", self this)])%list) (config app)
        (instance_path app) (teardown_appcontext app) in
    if is_memory path
       || match get "SQLITE3_DATABASE_PATH" (config app) with
          | Some c => String.eqb c ":memory:"
          | None => false
          end
    then mkSetup this app1 [] (Failed ValueError)
    else
      let p := database_path app path in
      let this1 := mkSQLite3 (self this) (Some p) in
      let app2 :=
        mkApp (extensions app1) (config app) (instance_path app)
          (teardown_appcontext app ++ [self this])%list in
      let made := if on_disk host p then [] else [Mkdir p] in
      match (if on_disk host p then None else mkdir host p) with
      | Some e => mkSetup this1 app1 made (Failed e)
      | None =>
          match script schema with
          | Some f =>
              match init_database host f with
              | Some e =>
                  mkSetup this1 app1 (made ++ [InitDatabase f])%list
                    (Failed e)
              | None =>
                  mkSetup this1 app2 (made ++ [InitDatabase f])%list
                    (Done tt)
              end
          | None => mkSetup this1 app2 made (Done tt)
          end
      end
  else
    mkSetup this
      (mkApp (Some registered) (config app) (instance_path app)
         (teardown_appcontext app))
      [] (Failed RuntimeError).

(** [SQLite3(app, path=..., schema=...)]: a new object, set up at once when
    an application is given. *)
Definition new (host : Host) (identity : nat) (app : option App)
    (path schema : option PathArg) : option Setup :=
  match app with
  | Some a => Some (init_app host (mkSQLite3 identity None) a path schema)
  | None => None
  end.

(** A connection to the database file: where it points, whether rows come
    back as [sqlite3.Row], whether it was closed. *)
Record Connection := mkConnection {
  database : Path;
  row_factory : bool;
  closed : bool
}.

(** The context object [g]: its attribute [flask_sqlite3_connection]. *)
Record G := mkG {
  flask_sqlite3_connection : option Connection
}.

(** The property [connection]. *)
Definition connection (this : SQLite3) (g : G) : G * Outcome Connection :=
  match flask_sqlite3_connection g with
  | Some conn => (g, Done conn)
  | None =>
      match _path this with
      | Some p =>
          let conn := mkConnection p true false in
          (mkG (Some conn), Done conn)
      | None => (g, Failed AttributeError)
      end
  end.


End Extension.

(* ===================================================================== *)
(** ** A small store to run the code on *)
(* ===================================================================== *)

Module Demo.
Import Store Routes.

Definition member (i : Z) (name : string) : User :=
  mkUser i name "First" "Last" "$2b$secret" None None None None None None.

Definition alice : User := member 1 "alice".
Definition bob : User := member 2 "bob".
Definition carol : User := member 3 "carol".

(** Alice and Bob are joined by the edge alice -> bob; Carol is joined to
    nobody. Two of the posts share their second of creation. *)
Definition demo_db : DB :=
  mkDB [alice; bob; carol]
    [mkPost 1 1 "first" "" 10; mkPost 2 2 "hello" "cat.png" 20;
     mkPost 3 3 "alone" "" 30; mkPost 4 1 "again" "" 20]
    [mkComment 1 2 1 "nice" 21]
    [mkFriend 1 2].

Definition demo_world : World := mkWorld demo_db 100 [] [].

(** Alice's row after the update of her profile that the runs below make. *)
Definition alice_updated : User :=
  mkUser 1 "alice" "First" "Last" "$2b$secret" (Some "R&amp;D")
    (Some "&lt;none&gt;") (Some "Jazz") (Some "Alien") (Some "Norway")
    (Some "<1990>").

(** A disk that takes every file and keeps away from the store, and a
    disk without the uploads folder. *)
Definition good_disk : Disk := fun _ d => (d, Returned tt).

Definition no_folder : Disk := fun _ d => (d, Raised OSError).

(** A stand-in for [str.isalnum]: what it gives on ASCII text. *)
Definition alnum_char (a : ascii) : bool :=
  let n := nat_of_ascii a in
  ((48 <=? n) && (n <=? 57) || (65 <=? n) && (n <=? 90)
   || (97 <=? n) && (n <=? 122))%nat.

Fixpoint all_alnum (s : string) : bool :=
  match s with
  | EmptyString => true
  | String a s' => alnum_char a && all_alnum s'
  end.

Definition ascii_isalnum (s : string) : bool :=
  negb (String.eqb s "") && all_alnum s.

(** A stand-in for the password hasher. *)
Definition demo_hash (pw : string) : string := "$2b$" ++ pw.

Definition demo_check (hash pw : string) : bool :=
  String.eqb hash (demo_hash pw).

Definition no_login : LoginForm := mkLoginForm false false false "" "".

Definition no_register : RegisterForm :=
  mkRegisterForm false false false "" "" "" "" [].

Definition login_as (name pw : string) : IndexForm :=
  mkIndexForm "POST" (mkLoginForm true true true name pw) no_register.

Definition register_as (name pw : string) : IndexForm :=
  mkIndexForm "POST" no_login
    (mkRegisterForm true true true name "First" "Last" pw []).

(** A register form whose only error is under the key [csrf_token]. *)
Definition bad_token : IndexForm :=
  mkIndexForm "POST" no_login
    (mkRegisterForm true true false "dave" "First" "Last" "pw"
       ["csrf_token"]).

(** An application as Flask makes it, configured as in [Config], and a
    disk without the instance folder. *)
Definition demo_app : Extension.App :=
  Extension.mkApp (Some []) [("SQLITE3_DATABASE_PATH", "sqlite3.db")]
    "instance" [].

Definition empty_disk : Extension.Host :=
  Extension.mkHost (fun _ => false) (fun _ => None) (fun _ => None).


End Demo.

(* ===================================================================== *)
(** ** Properties of [html.escape] *)
(* ===================================================================== *)

Module HtmlFacts.
Import Html Props.

Lemma append_assoc (s1 s2 s3 : string) :
  (s1 ++ (s2 ++ s3) = (s1 ++ s2) ++ s3)%string.
Proof.
  induction s1 as [|a s1 IH]; simpl; [reflexivity | now rewrite IH].
Qed.

Lemma replace_app (c : ascii) (r s1 s2 : string) :
  replace c r (s1 ++ s2) = (replace c r s1 ++ replace c r s2)%string.
Proof.
  induction s1 as [|a s1 IH]; simpl; [reflexivity|].
  destruct (Ascii.eqb a c); rewrite IH; [apply append_assoc | reflexivity].
Qed.

(** The five replacements, run one after the other, act on each character
    on its own. *)
Lemma escape_cons (a : ascii) (s : string) :
  escape (String a s) = (escape_char a ++ escape s)%string.
Proof.
  unfold escape_char, escape, escape_quote.
  change (String a s) with (String a EmptyString ++ s)%string.
  now rewrite !replace_app.
Qed.




(** Text without any of the five characters is left as it is. *)
Lemma escape_plain (s : string) : plain s = true -> escape s = s.
Proof.
  induction s as [|a s IH]; [reflexivity|].
  simpl. intros H. apply andb_prop in H. destruct H as [Ha Hs].
  rewrite escape_cons, (IH Hs). clear IH Hs.
  destruct a as [[] [] [] [] [] [] [] []]; try reflexivity; discriminate Ha.
Qed.

End HtmlFacts.

(* ===================================================================== *)
(** ** Properties of the queries *)
(* ===================================================================== *)

Module StoreFacts.
Import Store Props.

(** *** [ORDER BY ... DESC] *)

Section OrderBy.

Variable A : Type.
Variable key : A -> Z.

Lemma insert_desc_perm (x : A) (l : list A) :
  Permutation (x :: l) (insert_desc key x l).
Proof.
  induction l as [|y l IH]; simpl; [apply Permutation_refl|].
  destruct (key y <=? key x); [apply Permutation_refl|].
  eapply perm_trans; [apply perm_swap|]. now apply perm_skip.
Qed.

Lemma order_by_desc_perm (l : list A) : Permutation l (order_by_desc key l).
Proof.
  induction l as [|x l IH]; simpl; [constructor|].
  eapply perm_trans; [apply perm_skip, IH | apply insert_desc_perm].
Qed.

Lemma insert_desc_sorted (x : A) (l : list A) :
  StronglySorted (desc key) l -> StronglySorted (desc key) (insert_desc key x l).
Proof.
  induction 1 as [|y l Hs IH Hy]; simpl.
  - repeat constructor.
  - destruct (key y <=? key x) eqn:E.
    + apply Z.leb_le in E. constructor; [now constructor|].
      constructor; [exact E|].
      eapply Forall_impl; [|exact Hy]. unfold desc. intros z Hz. lia.
    + apply Z.leb_gt in E. constructor; [exact IH|].
      eapply Permutation_Forall; [apply insert_desc_perm|].
      constructor; [unfold desc; lia | exact Hy].
Qed.

Lemma order_by_desc_sorted (l : list A) :
  StronglySorted (desc key) (order_by_desc key l).
Proof.
  induction l as [|x l IH]; simpl; [constructor|].
  now apply insert_desc_sorted.
Qed.

(** With pairwise different keys a descending listing is strictly so. *)
Lemma desc_strict (l : list A) :
  StronglySorted (desc key) l -> NoDup (map key l) -> StronglySorted (strict_desc key) l.
Proof.
  induction 1 as [|x l Hs IH Hx]; intros Hnd; [constructor|].
  simpl in Hnd. inversion Hnd as [|k ks Hnotin Hnd']; subst.
  constructor; [now apply IH|].
  apply Forall_forall. intros y Hy.
  rewrite Forall_forall in Hx. specialize (Hx y Hy).
  unfold desc in Hx. unfold strict_desc.
  destruct (Z.eq_dec (key y) (key x)) as [E|NE]; [|lia].
  exfalso. apply Hnotin. rewrite <- E. now apply in_map.
Qed.

End OrderBy.

(** *** Joins on a key column *)

Lemma filter_id_none (a : Z) (users : list User) :
  ~ In a (map id users) -> filter (fun v => id v =? a) users = [].
Proof.
  induction users as [|v l IH]; simpl; [reflexivity|].
  intros H. destruct (id v =? a) eqn:E.
  - apply Z.eqb_eq in E. exfalso. apply H. now left.
  - apply IH. intros Hin. apply H. now right.
Qed.

Lemma filter_id_unique (a : Z) (users : list User) (u : User) :
  NoDup (map id users) -> In u users -> id u = a ->
  filter (fun v => id v =? a) users = [u].
Proof.
  induction users as [|v l IH]; simpl; [contradiction|].
  intros Hnd Hin Ha. inversion Hnd as [|k ks Hnotin Hnd']; subst.
  destruct Hin as [->|Hin].
  - rewrite Z.eqb_refl. f_equal. now apply filter_id_none.
  - destruct (id v =? id u) eqn:E.
    + apply Z.eqb_eq in E. exfalso. apply Hnotin. rewrite E.
      now apply in_map.
    + now apply IH.
Qed.

Lemma map_fst_filter {A B : Type} (f : A -> bool) (l : list (A * B)) :
  map fst (filter (fun x => f (fst x)) l) = filter f (map fst l).
Proof.
  induction l as [|x l IH]; simpl; [reflexivity|].
  destruct (f (fst x)); simpl; now rewrite IH.
Qed.

Lemma map_fst_join {A B : Type} (g : A -> list B) (l : list A) :
  (forall a, In a l -> exists b, g a = [b]) ->
  map fst (flat_map (fun a => map (pair a) (g a)) l) = l.
Proof.
  induction l as [|a l IH]; simpl; [reflexivity|].
  intros H. destruct (H a (or_introl eq_refl)) as [b Hb].
  rewrite Hb. simpl. f_equal. apply IH. intros a' Ha'. apply H. now right.
Qed.

(** *** The feed *)

Lemma existsb_eqb_In (a : Z) (l : list Z) :
  existsb (Z.eqb a) l = true <-> In a l.
Proof.
  rewrite existsb_exists. split.
  - intros [x [Hx E]]. apply Z.eqb_eq in E. now subst.
  - intros H. exists a. split; [exact H | apply Z.eqb_refl].
Qed.

Lemma feed_where_connected (db : DB) (u a : Z) :
  feed_where db u a = true <-> connected db u a.
Proof.
  unfold feed_where, connected.
  rewrite !orb_true_iff, !existsb_eqb_In, !in_map_iff, Z.eqb_eq.
  split.
  - intros [[[f [Hf Hin]] | [f [Hf Hin]]] | H]; [| |now left];
      apply filter_In in Hin; destruct Hin as [Hin E];
      apply Z.eqb_eq in E; destruct f as [x y]; simpl in *; subst; auto.
  - intros [H | [H | H]]; [now right | left; left | left; right];
      (eexists; split; [|apply filter_In; split; [exact H|]]);
      simpl; try reflexivity; apply Z.eqb_refl.
Qed.

Lemma get_posts_perm (db : DB) (u : Z) :
  store_ok db ->
  Permutation (map row_post (get_posts db u))
    (filter (fun p => feed_where db u (p_u_id p)) (Posts db)).
Proof.
  intros [Hnd Hfk]. unfold get_posts.
  eapply perm_trans;
    [apply Permutation_map, Permutation_sym, order_by_desc_perm|].
  rewrite map_map. simpl.
  rewrite (map_fst_filter (fun p => feed_where db u (p_u_id p))).
  rewrite map_fst_join; [apply Permutation_refl|].
  intros p Hp. apply Hfk in Hp. apply in_map_iff in Hp.
  destruct Hp as [usr [Hid Hin]]. exists usr.
  now apply filter_id_unique.
Qed.

Lemma get_posts_rows (db : DB) (u : Z) (r : FeedRow) :
  In r (get_posts db u) ->
  cc r = length (filter (fun c => c_p_id c =? p_id (row_post r)) (Comments db))
  /\ In (row_user r) (Users db)
  /\ id (row_user r) = p_u_id (row_post r).
Proof.
  unfold get_posts. intros H.
  eapply Permutation_in in H; [|apply Permutation_sym, order_by_desc_perm].
  apply in_map_iff in H. destruct H as [[p usr] [<- H]].
  apply filter_In in H. destruct H as [H _].
  apply in_flat_map in H. destruct H as [p' [_ H]].
  apply in_map_iff in H. destruct H as [usr' [E H]].
  inversion E; subst. apply filter_In in H. destruct H as [H Hid].
  apply Z.eqb_eq in Hid. simpl. auto.
Qed.

(** C1, as the code has it. For a store that keeps its keys,
    [get_posts db u] lists exactly
    the posts whose author is [u] or is joined to [u] by a friendship edge
    in either direction, each once for each time it is stored; the listing
    descends by creation time, strictly so when no two listed posts share
    a time; each row carries the number of comments on its post, and the
    author's user row. *)
Theorem get_posts_feed (db : DB) (u : Z) :
  store_ok db ->
  let rows := get_posts db u in
  (forall p, In p (map row_post rows)
             <-> In p (Posts db) /\ connected db u (p_u_id p))
  /\ Permutation (map row_post rows)
       (filter (fun p => feed_where db u (p_u_id p)) (Posts db))
  /\ StronglySorted (desc (fun r => p_creation_time (row_post r))) rows
  /\ (NoDup (map (fun r => p_creation_time (row_post r)) rows) ->
      StronglySorted (strict_desc (fun r => p_creation_time (row_post r)))
        rows)
  /\ (forall r, In r rows ->
        cc r = length (filter (fun c => c_p_id c =? p_id (row_post r))
                         (Comments db))
        /\ In (row_user r) (Users db)
        /\ id (row_user r) = p_u_id (row_post r)).
Proof.
  intros Hok rows. pose proof (get_posts_perm db u Hok) as Hperm.
  fold rows in Hperm.
  assert (Hs : StronglySorted (desc (fun r => p_creation_time (row_post r)))
                 rows) by apply order_by_desc_sorted.
  split; [|split; [exact Hperm | split; [exact Hs | split]]].
  - intros p. split.
    + intros Hin. eapply Permutation_in in Hin; [|exact Hperm].
      apply filter_In in Hin. destruct Hin as [Hin Hw].
      split; [exact Hin | now apply feed_where_connected].
    + intros [Hin Hc].
      eapply Permutation_in; [apply Permutation_sym, Hperm|].
      apply filter_In. split; [exact Hin | now apply feed_where_connected].
  - intros Hnd. now apply desc_strict.
  - intros r Hr. now apply (get_posts_rows db u).
Qed.

End StoreFacts.

(* ===================================================================== *)
(** ** Properties of the view functions *)
(* ===================================================================== *)

Module RouteFacts.
Import Store Routes Props.

Ltac run :=
  unfold index, index_body, run_create_user, stream, comments, friends,
    profile, bind, query, execute, execute_now, user_id, file_name, save,
    flash, ret, raise;
  simpl.

Lemma with_db_same (w : World) : with_db w (db w) = w.
Proof. now destruct w. Qed.

Lemma get_friend_In (d : DB) (u f : Z) :
  In f (get_friend d u) <-> In (mkFriend u f) (Friends d).
Proof.
  unfold get_friend. rewrite in_map_iff. split.
  - intros [[x y] [E H]]. apply filter_In in H. destruct H as [H Hu].
    apply Z.eqb_eq in Hu. simpl in *. now subst.
  - intros H. exists (mkFriend u f). split; [reflexivity|].
    apply filter_In. split; [exact H | apply Z.eqb_refl].
Qed.

(** *** [friends] *)

(** What a valid submission of the friends form does, case by case. *)
Lemma friends_submit (w : World) (uname : string) (form : FriendsForm)
    (a : User) :
  get_user (db w) uname = Some a ->
  friends_validate_on_submit form = true ->
  friends uname form w =
    match get_user (db w) (friends_username form) with
    | None =>
        (flashed w "User does not exist!" "warning",
         Returned (Render "friends.html.j2"
                     (FriendsView uname (get_friends (db w) (id a)))))
    | Some f =>
        if id f =? id a then
          (flashed w "You cannot be friends with yourself!" "warning",
           Returned (Render "friends.html.j2"
                       (FriendsView uname (get_friends (db w) (id a)))))
        else if existsb (Z.eqb (id f)) (get_friend (db w) (id a)) then
          (flashed w "You are already friends with this user!" "warning",
           Returned (Render "friends.html.j2"
                       (FriendsView uname (get_friends (db w) (id a)))))
        else
          (flashed (with_db w (with_edge (db w) (id a) (id f)))
             "Friend successfully added!" "success",
           Returned (Render "friends.html.j2"
                       (FriendsView uname
                          (get_friends (with_edge (db w) (id a) (id f))
                             (id a)))))
    end.
Proof.
  intros Ha Hv. run. rewrite Ha, Hv. simpl.
  destruct (get_user (db w) (friends_username form)) as [f|]; simpl;
    [|reflexivity].
  destruct (id f =? id a); simpl; [reflexivity|].
  destruct (existsb (Z.eqb (id f)) (get_friend (db w) (id a))); reflexivity.
Qed.

Lemma may_befriend_test (d : DB) (a f : User) (target : string) :
  get_user d target = Some f ->
  (may_befriend d a target f
   <-> (id f =? id a) = false
       /\ existsb (Z.eqb (id f)) (get_friend d (id a)) = false).
Proof.
  intros Hf. unfold may_befriend. rewrite Z.eqb_neq.
  rewrite <- not_true_iff_false, StoreFacts.existsb_eqb_In, get_friend_In.
  tauto.
Qed.

(** C2. When an existing user [a] submits the friends form with the name
    [target], the edge from [a] is added exactly when the target exists, is
    not [a] and is not yet at the end of an edge from [a]; otherwise the
    store stays as it is. Naming oneself never adds an edge; neither does
    asking a second time; an edge in the opposite direction does not get
    in the way. *)
Theorem friends_edge_iff (w : World) (uname : string) (form : FriendsForm)
    (a : User) :
  get_user (db w) uname = Some a ->
  friends_validate_on_submit form = true ->
  let target := friends_username form in
  let out := friends uname form w in
  ((exists f, may_befriend (db w) a target f
              /\ db (fst out) = with_edge (db w) (id a) (id f))
   \/ ((forall f, ~ may_befriend (db w) a target f)
       /\ db (fst out) = db w))
  /\ (get_user (db w) target = Some a ->
      fst out = flashed w "You cannot be friends with yourself!" "warning")
  /\ (forall f, may_befriend (db w) a target f ->
      fst (friends uname form (fst out))
      = flashed (fst out) "You are already friends with this user!"
          "warning")
  /\ (forall f, get_user (db w) target = Some f -> id f <> id a ->
      In (mkFriend (id f) (id a)) (Friends (db w)) ->
      ~ In (mkFriend (id a) (id f)) (Friends (db w)) ->
      Friends (db (fst out))
      = (Friends (db w) ++ [mkFriend (id a) (id f)])%list).
Proof.
  intros Ha Hv target out.
  assert (Hout : out = friends uname form w) by reflexivity.
  rewrite (friends_submit w uname form a Ha Hv) in Hout. fold target in Hout.
  assert (Hyes : forall f, may_befriend (db w) a target f ->
            out = (flashed (with_db w (with_edge (db w) (id a) (id f)))
                     "Friend successfully added!" "success",
                   Returned (Render "friends.html.j2"
                     (FriendsView uname
                        (get_friends (with_edge (db w) (id a) (id f))
                           (id a)))))).
  { intros f Hm. pose proof Hm as [Hf _].
    apply (may_befriend_test (db w) a f target Hf) in Hm. destruct Hm as [E1 E2].
    rewrite Hout, Hf, E1, E2. reflexivity. }
  split; [|split; [|split]].
  - destruct (get_user (db w) target) as [f|] eqn:Hf.
    + destruct (id f =? id a) eqn:E1;
        [|destruct (existsb (Z.eqb (id f)) (get_friend (db w) (id a)))
            eqn:E2].
      * right. split; [|now rewrite Hout].
        intros f' Hm. pose proof Hm as [Hf' _].
        assert (f' = f) by congruence. subst f'.
        apply (may_befriend_test (db w) a f target Hf) in Hm. destruct Hm; congruence.
      * right. split; [|now rewrite Hout].
        intros f' Hm. pose proof Hm as [Hf' _].
        assert (f' = f) by congruence. subst f'.
        apply (may_befriend_test (db w) a f target Hf) in Hm. destruct Hm; congruence.
      * left. exists f. split; [|now rewrite Hout].
        apply (may_befriend_test (db w) a f target Hf). now split.
    + right. split; [|now rewrite Hout].
      intros f' [Hf' _]. congruence.
  - intros Hself. rewrite Hout, Hself, Z.eqb_refl. reflexivity.
  - intros f Hm. rewrite (Hyes f Hm). simpl.
    destruct Hm as [Hf [Hne _]].
    rewrite (friends_submit _ uname form a); simpl; try assumption.
    fold target. unfold get_user in *. simpl. rewrite Hf.
    apply Z.eqb_neq in Hne. rewrite Hne.
    assert (E : existsb (Z.eqb (id f))
                  (get_friend (with_edge (db w) (id a) (id f)) (id a))
                = true).
    { apply StoreFacts.existsb_eqb_In, get_friend_In. simpl.
      apply in_or_app. right. now left. }
    rewrite E. reflexivity.
  - intros f Hf Hne _ Hno.
    rewrite (Hyes f); [reflexivity|]. now repeat split.
Qed.

(** *** [index] *)

Lemma find_existsb {A : Type} (f : A -> bool) (l : list A) (x : A) :
  find f l = Some x -> existsb f l = true.
Proof.
  intros H. apply find_some in H. apply existsb_exists. now exists x.
Qed.

(** What a valid submission of the login form does. *)
Lemma index_login_submit (sch : Schema) (gen : string -> string)
    (chk : string -> string -> bool)
    (len : string -> nat) (alnum : string -> bool)
    (form : IndexForm) (w : World) :
  login_request form = true ->
  index sch gen chk len alnum form w =
    match get_user (db w) (login_username (login form)) with
    | None =>
        (flashed w "Sorry, username or password is not valid!" "warning",
         Returned (Render "index.html.j2" IndexView))
    | Some u =>
        if chk (password u) (Html.escape (login_password (login form)))
        then (w, Returned (Redirect "stream"
                             (Some (login_username (login form)))))
        else
          (flashed w "Sorry, username or password is not valid!" "warning",
           Returned (Render "index.html.j2" IndexView))
    end.
Proof.
  unfold login_request. rewrite !andb_true_iff.
  intros [[[Hm Hs] Hb] Hv]. run. rewrite Hm, Hs, Hb, Hv. simpl.
  destruct (get_user (db w) (login_username (login form))) as [u|];
    [|reflexivity].
  destruct (chk (password u) (Html.escape (login_password (login form))));
    reflexivity.
Qed.

(** What a valid submission of the register form does. *)
Lemma index_register_submit (sch : Schema) (gen : string -> string)
    (chk : string -> string -> bool)
    (len : string -> nat) (alnum : string -> bool)
    (form : IndexForm) (w : World) :
  register_request form = true ->
  index sch gen chk len alnum form w =
    match create_user sch (db w) (register_username (register form))
            (register_first_name (register form))
            (register_last_name (register form))
            (gen (register_password (register form))) with
    | Raised e => (w, Raised e)
    | Returned (d, n) =>
        if n =? 1 then
          (flashed (with_db w d) "User successfully created!" "success",
           Returned (Redirect "index" None))
        else
          (flashed (with_db w d) "Somthing went wrong, user was not created!"
             "warning",
           Returned (Render "index.html.j2" IndexView))
    end.
Proof.
  unfold register_request. rewrite !andb_true_iff, negb_true_iff.
  intros [[[[Hm Hl] Hs] Hb] Hv]. run. rewrite Hm, Hl, Hs, Hb, Hv. simpl.
  destruct (create_user sch (db w) (register_username (register form))
              (register_first_name (register form))
              (register_last_name (register form))
              (gen (register_password (register form)))) as [[d n]|e];
    [|reflexivity].
  destruct (n =? 1); reflexivity.
Qed.

Lemma create_user_duplicate (sch : Schema) (d : DB)
    (name first last pw : string) (u : User) :
  username_unique sch = true ->
  get_user d name = Some u ->
  create_user sch d name first last pw = Raised IntegrityError.
Proof.
  intros Hu Hg. unfold create_user. rewrite Hu.
  unfold get_user in Hg. now rewrite (find_existsb _ _ u Hg).
Qed.

(** An insert that goes through reports one row, so the branch of [index]
    that flashes the failure message is never taken. *)
Lemma create_user_rowcount (sch : Schema) (d d' : DB)
    (name first last pw : string) (n : Z) :
  create_user sch d name first last pw = Returned (d', n) -> n = 1.
Proof.
  unfold create_user.
  destruct (username_unique sch && _); [discriminate|].
  intros H. now inversion H.
Qed.

(** Without the uniqueness constraint the second insert goes through: the
    name gets a second row and the page reports a success. *)
Lemma register_duplicate_unconstrained (sch : Schema)
    (gen : string -> string) (chk : string -> string -> bool)
    (len : string -> nat) (alnum : string -> bool)
    (form : IndexForm) (w : World) :
  username_unique sch = false ->
  register_request form = true ->
  exists row,
    username row = Html.escape (register_username (register form))
    /\ index sch gen chk len alnum form w
       = (flashed
            (with_db w (mkDB (Users (db w) ++ [row]) (Posts (db w))
                          (Comments (db w)) (Friends (db w))))
            "User successfully created!" "success",
          Returned (Redirect "index" None)).
Proof.
  intros Hu Hr. rewrite (index_register_submit sch gen chk len alnum form w Hr).
  unfold create_user. rewrite Hu. simpl. eexists. split; [|reflexivity].
  reflexivity.
Qed.

(** C3. With the uniqueness constraint of the schema in force, a valid
    submission of the register form for a username that is already stored
    ends [index] with the [IntegrityError] of the insert: nothing is
    flashed, no page is rendered, and the store is as before. *)
Theorem register_duplicate_raises (sch : Schema) (gen : string -> string)
    (chk : string -> string -> bool)
    (len : string -> nat) (alnum : string -> bool)
    (form : IndexForm) (w : World)
    (u : User) :
  username_unique sch = true ->
  register_request form = true ->
  get_user (db w) (register_username (register form)) = Some u ->
  index sch gen chk len alnum form w = (w, Raised IntegrityError).
Proof.
  intros Hu Hr Hg.
  rewrite (index_register_submit sch gen chk len alnum form w Hr).
  now rewrite (create_user_duplicate sch (db w) _ _ _ _ u Hu Hg).
Qed.

(** C6. A login for a username that is not stored and a login for a stored
    username with a password that does not verify end [index] the same
    way: the same message is flashed under the same category and the same
    page is rendered. *)
Theorem login_rejections_agree (sch : Schema) (gen : string -> string)
    (chk : string -> string -> bool)
    (len : string -> nat) (alnum : string -> bool) (unknown wrong : IndexForm)
    (w : World) (u : User) :
  login_request unknown = true ->
  login_request wrong = true ->
  get_user (db w) (login_username (login unknown)) = None ->
  get_user (db w) (login_username (login wrong)) = Some u ->
  chk (password u) (Html.escape (login_password (login wrong))) = false ->
  index sch gen chk len alnum unknown w = index sch gen chk len alnum wrong w
  /\ index sch gen chk len alnum wrong w
     = (flashed w "Sorry, username or password is not valid!" "warning",
        Returned (Render "index.html.j2" IndexView)).
Proof.
  intros H1 H2 Hnone Hsome Hchk.
  rewrite (index_login_submit sch gen chk len alnum unknown w H1), Hnone.
  rewrite (index_login_submit sch gen chk len alnum wrong w H2), Hsome, Hchk.
  now split.
Qed.

(** *** [stream] *)

(** What [stream] does with a valid post that carries a file part: the
    write first, when the file has a name, then the user, then the
    insert. *)
Lemma stream_submit_file (write : Disk) (w : World) (uname text : string)
    (fs : FileStorage) :
  stream write uname (mkPostForm true text (Some fs)) w
  = let named := negb (String.eqb (filename fs) "") in
    let d := if named then fst (write fs (db w)) else db w in
    match (if named then snd (write fs (db w)) else Returned tt) with
    | Raised e => (written w fs d false, Raised e)
    | Returned _ =>
        match get_user (db w) uname with
        | None => (written w fs d named, Raised TypeError)
        | Some u =>
            (with_db (written w fs d named)
               (fst (create_post (clock w) d (id u) text (filename fs))),
             Returned (Redirect "stream" (Some uname)))
        end
    end.
Proof.
  unfold stream, bind, query, save, user_id, file_name, execute_now, ret,
    raise, truthy, written.
  cbn [post_validate_on_submit post_image post_content].
  destruct (negb (String.eqb (filename fs) "")); cbn zeta.
  - destruct (write fs (db w)) as [d [[]|e]]; cbn [fst snd db clock];
      [|reflexivity].
    destruct (get_user (db w) uname) as [u|]; reflexivity.
  - destruct w as [d c f u0]. cbn [db clock flashes uploads].
    destruct (get_user d uname) as [u|]; reflexivity.
Qed.

(** A valid post with a file part, when the write of the file returns and
    leaves the store alone, or is not made because the file has no name,
    stores the post, under the name of the file, and redirects. *)
Lemma stream_post_with_file (write : Disk) (w : World)
    (uname text : string) (fs : FileStorage) (u : User) :
  get_user (db w) uname = Some u ->
  filename fs = "" \/ write fs (db w) = (db w, Returned tt) ->
  exists w',
    stream write uname (mkPostForm true text (Some fs)) w
    = (w', Returned (Redirect "stream" (Some uname)))
    /\ db w'
       = fst (create_post (clock w) (db w) (id u) text (filename fs)).
Proof.
  intros Hu Hw. rewrite stream_submit_file, Hu. cbn zeta.
  destruct Hw as [Hw|Hw].
  - rewrite Hw. cbn. eexists. split; reflexivity.
  - rewrite Hw. cbn [fst snd].
    destruct (negb (String.eqb (filename fs) ""));
      eexists; split; reflexivity.
Qed.

(** C5. A valid post by an existing user whose request carries no image
    part ends [stream] with the [AttributeError] of reading the file name
    of [None]: no post is stored and nothing is redirected. *)
Theorem stream_post_without_image_raises (write : Disk) (w : World)
    (uname text : string) (u : User) :
  get_user (db w) uname = Some u ->
  stream write uname (mkPostForm true text None) w
  = (w, Raised AttributeError).
Proof.
  intros Hu. run. now rewrite Hu.
Qed.

(** *** A username without a user row *)

(** When no file is written, [stream] ends at the subscript. *)
Lemma stream_missing_user_no_file (write : Disk) (w : World)
    (uname : string) (form : PostForm) :
  get_user (db w) uname = None ->
  post_validate_on_submit form && truthy (post_image form) = false ->
  stream write uname form w = (w, Raised TypeError).
Proof.
  intros Hu Hf. unfold stream, bind, query, user_id, ret, raise.
  rewrite Hu. destruct (post_validate_on_submit form); [|reflexivity].
  cbn [andb] in Hf. now rewrite Hf.
Qed.

(** When a file is written, the write comes first: [stream] ends with the
    exception of the write if it raises, at the subscript if not. *)
Lemma stream_missing_user_file (write : Disk) (w : World)
    (uname text : string) (fs : FileStorage) :
  get_user (db w) uname = None ->
  truthy (Some fs) = true ->
  stream write uname (mkPostForm true text (Some fs)) w
  = match snd (write fs (db w)) with
    | Returned _ =>
        (written w fs (fst (write fs (db w))) true, Raised TypeError)
    | Raised e => (written w fs (fst (write fs (db w))) false, Raised e)
    end.
Proof.
  intros Hu Ht. rewrite stream_submit_file, Hu. cbn zeta.
  unfold truthy in Ht. rewrite Ht.
  now destruct (snd (write fs (db w))).
Qed.

(** Either way [stream] raises. *)
Lemma stream_missing_user (write : Disk) (w : World) (uname : string)
    (form : PostForm) :
  get_user (db w) uname = None ->
  exists w' e, stream write uname form w = (w', Raised e).
Proof.
  intros Hu.
  destruct (post_validate_on_submit form && truthy (post_image form))
    eqn:E.
  - apply andb_true_iff in E. destruct E as [Hv Ht].
    destruct form as [v text [fs|]]; cbn in Hv, Ht; [|discriminate].
    subst v. rewrite (stream_missing_user_file write w uname text fs Hu Ht).
    destruct (snd (write fs (db w))); eexists; eexists; reflexivity.
  - rewrite (stream_missing_user_no_file write w uname form Hu E).
    eexists; eexists; reflexivity.
Qed.

Lemma friends_missing_user (w : World) (uname : string)
    (form : FriendsForm) :
  get_user (db w) uname = None ->
  friends uname form w = (w, Raised TypeError).
Proof.
  intros Hu. run. rewrite Hu.
  destruct (friends_validate_on_submit form); reflexivity.
Qed.

Lemma comments_missing_user_submit (w : World) (uname : string)
    (post_id : Z) (form : CommentsForm) :
  get_user (db w) uname = None ->
  comments_validate_on_submit form = true ->
  comments uname post_id form w = (w, Raised TypeError).
Proof.
  intros Hu Hv. run. now rewrite Hu, Hv.
Qed.

(** Without a valid submission [comments] does not use the user: it goes
    on to the post, which it can look up when sqlite3 can bind the id. *)
Lemma comments_view (w : World) (uname : string) (post_id : Z)
    (form : CommentsForm) :
  comments_validate_on_submit form = false ->
  comments uname post_id form w
  = (w, match get_post (db w) post_id with
        | Returned post =>
            Returned (Render "comments.html.j2"
                        (CommentsView uname post
                           (get_comments (db w) post_id)))
        | Raised e => Raised e
        end).
Proof.
  intros Hv. unfold comments, bind, query, fetch, ret. rewrite Hv.
  now destruct (get_post (db w) post_id).
Qed.

Lemma get_post_bound (d : DB) (post_id : Z) :
  if int64 post_id
  then exists post, get_post d post_id = Returned post
  else get_post d post_id = Raised OverflowError.
Proof.
  unfold get_post. destruct (int64 post_id); [eexists|]; reflexivity.
Qed.

(** C9, as the code has it. For a username without a user row: [friends]
    ends with the [TypeError] of subscripting [None] on every request, and
    so does [stream] on every request that writes no file; on a valid post
    with a named file [stream] writes the file first, and ends with the
    exception of the write when it raises and with the [TypeError] when it
    returns; [comments] ends with the [TypeError] on every valid
    submission, and without one never uses the user: it renders the
    comments page when the post id is a 64-bit integer and ends with
    [OverflowError] when it is not. *)
Theorem missing_user_dereference (write : Disk) (w : World)
    (uname : string) :
  get_user (db w) uname = None ->
  (forall form,
     post_validate_on_submit form && truthy (post_image form) = false ->
     stream write uname form w = (w, Raised TypeError))
  /\ (forall text fs,
        truthy (Some fs) = true ->
        stream write uname (mkPostForm true text (Some fs)) w
        = match snd (write fs (db w)) with
          | Returned _ =>
              (written w fs (fst (write fs (db w))) true, Raised TypeError)
          | Raised e =>
              (written w fs (fst (write fs (db w))) false, Raised e)
          end)
  /\ (forall form, friends uname form w = (w, Raised TypeError))
  /\ (forall post_id form,
        comments_validate_on_submit form = true ->
        comments uname post_id form w = (w, Raised TypeError))
  /\ (forall post_id form,
        comments_validate_on_submit form = false ->
        if int64 post_id
        then exists post,
               get_post (db w) post_id = Returned post
               /\ comments uname post_id form w
                  = (w, Returned (Render "comments.html.j2"
                                    (CommentsView uname post
                                       (get_comments (db w) post_id))))
        else comments uname post_id form w = (w, Raised OverflowError)).
Proof.
  intros Hu. split; [|split; [|split; [|split]]].
  - intros form. now apply stream_missing_user_no_file.
  - intros text fs. now apply stream_missing_user_file.
  - intros form. now apply friends_missing_user.
  - intros post_id form Hv. now apply comments_missing_user_submit.
  - intros post_id form Hv. rewrite (comments_view w uname post_id form Hv).
    pose proof (get_post_bound (db w) post_id) as H.
    destruct (int64 post_id).
    + destruct H as [post H]. exists post. now rewrite H.
    + now rewrite H.
Qed.

(** *** [profile] *)

Lemma update_profile_missing (d : DB)
    (name e m mu mo n b : string) :
  get_user d name = None ->
  update_profile d name e m mu mo n b = (d, 0).
Proof.
  unfold get_user, update_profile. intros H.
  assert (Hno : forall u, In u (Users d) ->
                  String.eqb (username u) (Html.escape name) = false).
  { intros u Hin. exact (find_none _ _ H u Hin). }
  assert (Hmap : map (fun u =>
                   if String.eqb (username u) (Html.escape name)
                   then set_profile (Html.escape e) (Html.escape m)
                          (Html.escape mu) (Html.escape mo)
                          (Html.escape n) b u
                   else u) (Users d) = Users d).
  { rewrite <- (map_id (Users d)) at 2. apply map_ext_in.
    intros u Hin. now rewrite (Hno u Hin). }
  assert (Hfil : filter (fun u => String.eqb (username u) (Html.escape name))
                   (Users d) = []).
  { clear Hmap H. induction (Users d) as [|u l IH]; [reflexivity|].
    simpl. rewrite (Hno u (or_introl eq_refl)).
    apply IH. intros v Hv. apply Hno. now right. }
  rewrite Hmap, Hfil. now destruct d.
Qed.

(** C10. For a username without a user row [profile] never raises: a
    request without a valid form renders the profile page with no user, a
    valid submission runs [update_profile], which touches no row, and
    redirects to the profile page; the world is left as it was. On the
    same username [stream] and [friends] raise on every request, with the
    [TypeError] of the subscript unless a file write of [stream] raised
    before it, and [comments] raises it on every valid submission. *)
Theorem profile_missing_user_completes (write : Disk) (w : World)
    (uname : string) (form : ProfileForm) :
  get_user (db w) uname = None ->
  profile uname form w
  = (w, Returned
          (if profile_validate_on_submit form
           then Redirect "profile" (Some uname)
           else Render "profile.html.j2" (ProfileView uname None)))
  /\ update_profile (db w) uname (profile_education form)
       (profile_employment form) (profile_music form) (profile_movie form)
       (profile_nationality form) (profile_birthday form)
     = (db w, 0)
  /\ (forall f, exists e, snd (stream write uname f w) = Raised e)
  /\ (forall f,
        post_validate_on_submit f && truthy (post_image f) = false ->
        snd (stream write uname f w) = Raised TypeError)
  /\ (forall text fs,
        snd (write fs (db w)) = Returned tt ->
        snd (stream write uname (mkPostForm true text (Some fs)) w)
        = Raised TypeError)
  /\ (forall f, snd (friends uname f w) = Raised TypeError)
  /\ (forall post_id f,
        comments_validate_on_submit f = true ->
        snd (comments uname post_id f w) = Raised TypeError).
Proof.
  intros Hu. split; [|split; [|split; [|split; [|split; [|split]]]]].
  - unfold profile, bind, query, execute, ret.
    destruct (profile_validate_on_submit form); [|now rewrite Hu].
    rewrite (update_profile_missing (db w) uname _ _ _ _ _ _ Hu).
    now rewrite with_db_same.
  - now apply update_profile_missing.
  - intros f.
    destruct (stream_missing_user write w uname f Hu) as [w' [e E]].
    exists e. now rewrite E.
  - intros f Hf.
    now rewrite (stream_missing_user_no_file write w uname f Hu Hf).
  - intros text fs Hw. rewrite stream_submit_file, Hu. cbn zeta.
    destruct (negb (String.eqb (filename fs) "")); [now rewrite Hw|].
    reflexivity.
  - intros f. now rewrite (friends_missing_user w uname f Hu).
  - intros post_id f Hv.
    now rewrite (comments_missing_user_submit w uname post_id f Hu Hv).
Qed.

(** *** The store after [stream] and [comments] *)

(** On a file system whose writes leave the store alone, the store after
    [stream] is the store before, or that store with the one post. *)
Lemma stream_db (write : Disk) (w : World) (uname : string)
    (form : PostForm) :
  leaves_store write ->
  db (fst (stream write uname form w)) = db w
  \/ exists u fs,
       get_user (db w) uname = Some u
       /\ post_image form = Some fs
       /\ db (fst (stream write uname form w))
          = fst (create_post (clock w) (db w) (id u) (post_content form)
                   (filename fs)).
Proof.
  intros Hl. destruct form as [v text [fs|]]; destruct v.
  - rewrite stream_submit_file. cbn zeta.
    pose proof (Hl fs (db w)) as E.
    destruct (negb (String.eqb (filename fs) ""));
      [rewrite E; destruct (snd (write fs (db w))); [|now left]|];
      (destruct (get_user (db w) uname) as [u|] eqn:Hu; [|now left]);
      right; exists u, fs; auto.
  - left. unfold stream, bind, query.
    now destruct (get_user (db w) uname).
  - left. unfold stream, bind, query, user_id, file_name, ret, raise.
    cbn. now destruct (get_user (db w) uname).
  - left. unfold stream, bind, query.
    now destruct (get_user (db w) uname).
Qed.

Lemma comments_db (w : World) (uname : string) (post_id : Z)
    (form : CommentsForm) :
  db (fst (comments uname post_id form w)) = db w
  \/ exists u n,
       get_user (db w) uname = Some u
       /\ create_comment (clock w) (db w) post_id (id u)
            (comments_comment form)
          = Returned (db (fst (comments uname post_id form w)), n).
Proof.
  unfold comments, bind, query, fetch, try_execute_now, user_id, ret, raise.
  destruct (get_user (db w) uname) as [u|] eqn:Hu;
    destruct (comments_validate_on_submit form); cbn;
    try (destruct (get_post (db w) post_id); now left).
  destruct (create_comment (clock w) (db w) post_id (id u)
              (comments_comment form)) as [[d n]|e] eqn:E; [|now left].
  right. exists u, n. split; [reflexivity|].
  unfold get_post in *. cbn.
  now destruct (int64 post_id).
Qed.

End RouteFacts.

(* ===================================================================== *)
(** ** Properties of the writes *)
(* ===================================================================== *)

Module WriteFacts.
Import Store Props.


Lemma update_profile_users (d : DB) (name e m mu mo n b : string) :
  Users (fst (update_profile d name e m mu mo n b))
  = map (fun u => if named name u
                  then set_profile (Html.escape e) (Html.escape m)
                         (Html.escape mu) (Html.escape mo) (Html.escape n)
                         b u
                  else u) (Users d).
Proof. reflexivity. Qed.

(** C4, as the code has it. In every row [update_profile] writes to,
    education, employment, music, movie and nationality hold the escaped
    form of what was submitted, free of angle brackets and quotes; the
    birthday holds what was submitted, as it is. *)
Theorem update_profile_sanitizes (d : DB) (name e m mu mo n b : string)
    (r : User) :
  In r (Users (fst (update_profile d name e m mu mo n b))) ->
  username r = Html.escape name ->
  education r = Some (Html.escape e)
  /\ employment r = Some (Html.escape m)
  /\ music r = Some (Html.escape mu)
  /\ movie r = Some (Html.escape mo)
  /\ nationality r = Some (Html.escape n)
  /\ birthday r = Some b.
Proof.
  rewrite update_profile_users. intros Hin Hname.
  apply in_map_iff in Hin. destruct Hin as [u [Hr Hin]].
  destruct (named name u) eqn:E.
  - subst r. simpl. repeat split; reflexivity.
  - subst r. unfold named in E. apply String.eqb_neq in E. contradiction.
Qed.

Lemma find_named_map (name : string) (g : User -> User) (l : list User) :
  (forall u, username (g u) = username u) ->
  find (named name) (map g l) = option_map g (find (named name) l).
Proof.
  intros Hg. induction l as [|u l IH]; simpl; [reflexivity|].
  unfold named at 1. rewrite Hg. fold (named name u).
  destruct (named name u); [reflexivity | exact IH].
Qed.

(** C8, as the code has it. [update_profile] for [name] leaves every row
    with another username, the number and order of the rows, and the
    other three tables as they were; [get_user] for [name] then returns
    the row it returned before with the escaped form of education,
    employment, music, movie and nationality, and the birthday as
    submitted. *)
Theorem update_profile_frame (d : DB) (name e m mu mo n b : string)
    (u : User) :
  get_user d name = Some u ->
  let d' := fst (update_profile d name e m mu mo n b) in
  (forall i r, nth_error (Users d) i = Some r ->
               username r <> Html.escape name ->
               nth_error (Users d') i = Some r)
  /\ length (Users d') = length (Users d)
  /\ Posts d' = Posts d
  /\ Comments d' = Comments d
  /\ Friends d' = Friends d
  /\ get_user d' name
     = Some (set_profile (Html.escape e) (Html.escape m) (Html.escape mu)
               (Html.escape mo) (Html.escape n) b u).
Proof.
  intros Hu d'. unfold d'. unfold get_user. rewrite update_profile_users.
  split; [|split; [|repeat split]].
  - intros i r Hi Hr. rewrite nth_error_map, Hi. simpl.
    apply String.eqb_neq in Hr. unfold named. now rewrite Hr.
  - apply length_map.
  - fold (named name).
    rewrite find_named_map.
    + unfold get_user in Hu. fold (named name) in Hu. rewrite Hu. simpl.
      apply find_some in Hu. destruct Hu as [_ Hn]. now rewrite Hn.
    + intros v. now destruct (named name v).
Qed.

End WriteFacts.

(* ===================================================================== *)
(** ** The store keeps its keys *)
(* ===================================================================== *)

Module Invariant.
Import Store Routes Props.

Lemma fresh_id_above (ids : list Z) (x : Z) : In x ids -> x < fresh_id ids.
Proof.
  unfold fresh_id. induction ids as [|y l IH]; [contradiction|].
  cbn [fold_right In].
  pose proof (Z.le_max_l y (fold_right Z.max 0 l)) as Hl.
  pose proof (Z.le_max_r y (fold_right Z.max 0 l)) as Hr.
  intros [->|H]; [lia|]. specialize (IH H). lia.
Qed.

Lemma fresh_id_new (ids : list Z) : ~ In (fresh_id ids) ids.
Proof.
  intros H. apply fresh_id_above in H. lia.
Qed.

Lemma store_ok_same (d d' : DB) :
  map id (Users d') = map id (Users d) -> Posts d' = Posts d ->
  store_ok d -> store_ok d'.
Proof.
  unfold store_ok. intros -> ->. exact (fun H => H).
Qed.

Lemma create_user_ok (sch : Schema) (d d' : DB)
    (name first last pw : string) (n : Z) :
  store_ok d ->
  create_user sch d name first last pw = Returned (d', n) ->
  store_ok d'.
Proof.
  intros [Hnd Hfk]. unfold create_user.
  destruct (username_unique sch && _); [discriminate|].
  intros H. inversion H; subst; clear H. split; simpl.
  - rewrite map_app. simpl.
    eapply Permutation_NoDup; [apply Permutation_cons_append|].
    constructor; [apply fresh_id_new | exact Hnd].
  - intros p Hp. rewrite map_app. apply in_or_app. left. now apply Hfk.
Qed.

Lemma create_post_ok (now : Z) (d : DB) (uid : Z) (text img : string) :
  store_ok d -> In uid (map id (Users d)) ->
  store_ok (fst (create_post now d uid text img)).
Proof.
  intros [Hnd Hfk] Hin. split; simpl; [exact Hnd|].
  intros p Hp. apply in_app_or in Hp. destruct Hp as [Hp|[<-|[]]].
  - now apply Hfk.
  - exact Hin.
Qed.

Lemma update_profile_ok (d : DB) (name e m mu mo n b : string) :
  store_ok d -> store_ok (fst (update_profile d name e m mu mo n b)).
Proof.
  apply store_ok_same; [|reflexivity]. simpl. rewrite map_map.
  apply map_ext. intros u.
  now destruct (String.eqb (username u) (Html.escape name)).
Qed.

(** Every view function leaves a store that keeps its keys in that state,
    whether it returns or raises; [stream] as long as the write of an
    upload leaves the store alone. *)
Lemma stream_ok (write : Disk) (w : World) (uname : string)
    (form : PostForm) :
  leaves_store write ->
  store_ok (db w) -> store_ok (db (fst (stream write uname form w))).
Proof.
  intros Hl Hok.
  destruct (RouteFacts.stream_db write w uname form Hl)
    as [->|[u [fs [Hu [_ ->]]]]]; [exact Hok|].
  apply create_post_ok; [exact Hok|].
  apply in_map. unfold get_user in Hu. now apply find_some in Hu.
Qed.

Lemma comments_ok (w : World) (uname : string) (post_id : Z)
    (form : CommentsForm) :
  store_ok (db w) -> store_ok (db (fst (comments uname post_id form w))).
Proof.
  intros Hok.
  destruct (RouteFacts.comments_db w uname post_id form)
    as [->|[u [n [_ H]]]]; [exact Hok|].
  unfold create_comment in H. destruct (int64 post_id); [|discriminate].
  injection H as Hd Hn. rewrite <- Hd. exact Hok.
Qed.

Lemma friends_ok (w : World) (uname : string) (form : FriendsForm) :
  store_ok (db w) -> store_ok (db (fst (friends uname form w))).
Proof.
  intros Hok. unfold friends, bind, query.
  destruct (get_user (db w) uname) as [u|];
    destruct (friends_validate_on_submit form); simpl; try exact Hok.
  destruct (get_user (db w) (friends_username form)) as [f|]; simpl;
    [|exact Hok].
  destruct (id f =? id u); simpl; [exact Hok|].
  destruct (existsb (Z.eqb (id f)) (get_friend (db w) (id u))); simpl;
    exact Hok.
Qed.

Lemma profile_ok (w : World) (uname : string) (form : ProfileForm) :
  store_ok (db w) -> store_ok (db (fst (profile uname form w))).
Proof.
  intros Hok. unfold profile, bind, query, execute, ret.
  destruct (profile_validate_on_submit form); [|exact Hok].
  match goal with
  | |- context [update_profile ?d ?a ?b ?c ?e ?f ?g ?h] =>
      pose proof (update_profile_ok d a b c e f g h Hok) as H;
      destruct (update_profile d a b c e f g h) as [d' k]
  end.
  exact H.
Qed.

Lemma index_ok (sch : Schema) (gen : string -> string)
    (chk : string -> string -> bool)
    (len : string -> nat) (alnum : string -> bool)
    (form : IndexForm) (w : World) :
  store_ok (db w) -> store_ok (db (fst (index sch gen chk len alnum form w))).
Proof.
  intros Hok. unfold index, index_body, bind, query, run_create_user.
  destruct (String.eqb (request_method form) "POST"); [|exact Hok].
  destruct (login_is_submitted (login form) && login_submit (login form)).
  - destruct (login_validate_on_submit (login form)); [|exact Hok].
    destruct (get_user (db w) (login_username (login form))) as [u|];
      [|exact Hok].
    destruct (chk (password u) (Html.escape (login_password (login form))));
      exact Hok.
  - destruct (register_is_submitted (register form)
              && register_submit (register form)); [|exact Hok].
    destruct (register_validate_on_submit (register form)); [|exact Hok].
    destruct (create_user sch (db w) (register_username (register form))
                (register_first_name (register form))
                (register_last_name (register form))
                (gen (register_password (register form))))
      as [[d' n]|e] eqn:E; [|exact Hok].
    apply (create_user_ok sch (db w) d' _ _ _ _ n Hok) in E.
    destruct (n =? 1); exact E.
Qed.

End Invariant.

(* ===================================================================== *)
(** ** Escaped text as a key *)
(* ===================================================================== *)

Module EscapeFacts.
Import Html Store Props.

Lemma escape_char_plain (a : ascii) :
  markup_char a || Ascii.eqb a amp = false -> escape_char a = String a "".
Proof.
  destruct a as [[] [] [] [] [] [] [] []]; intros H;
    try reflexivity; discriminate H.
Qed.

Lemma special_cases (a : ascii) :
  markup_char a || Ascii.eqb a amp = true ->
  a = amp \/ a = lt \/ a = gt \/ a = dquote \/ a = squote.
Proof.
  destruct a as [[] [] [] [] [] [] [] []]; intros H;
    try discriminate H; auto 6.
Qed.

(** Every character gives at least one character, and a rewritten one
    gives an entity, which opens with the ampersand. *)
Lemma escape_char_head (a : ascii) :
  exists r,
    escape_char a
    = String (if markup_char a || Ascii.eqb a amp then amp else a) r.
Proof.
  destruct (markup_char a || Ascii.eqb a amp) eqn:E.
  - destruct (special_cases a E) as [->|[->|[->|[->| ->]]]];
      eexists; reflexivity.
  - exists ""%string. now apply escape_char_plain.
Qed.

Lemma length_append (s1 s2 : string) :
  String.length (s1 ++ s2) = (String.length s1 + String.length s2)%nat.
Proof.
  induction s1 as [|a s1 IH]; simpl; [reflexivity | now rewrite IH].
Qed.

Lemma escape_char_length (a : ascii) :
  (if markup_char a || Ascii.eqb a amp
   then 1 < String.length (escape_char a)
   else String.length (escape_char a) = 1)%nat.
Proof.
  destruct (markup_char a || Ascii.eqb a amp) eqn:E.
  - destruct (special_cases a E) as [->|[->|[->|[->| ->]]]];
      cbn; lia.
  - now rewrite (escape_char_plain a E).
Qed.

Lemma escape_length (s : string) :
  (String.length s <= String.length (escape s))%nat.
Proof.
  induction s as [|a s IH]; [apply Nat.le_refl|].
  rewrite HtmlFacts.escape_cons, length_append. simpl.
  pose proof (escape_char_length a) as H.
  destruct (markup_char a || Ascii.eqb a amp); lia.
Qed.

Lemma escape_same_length_plain (s : string) :
  String.length (escape s) = String.length s -> plain s = true.
Proof.
  induction s as [|a s IH]; [reflexivity|].
  rewrite HtmlFacts.escape_cons, length_append. simpl.
  pose proof (escape_char_length a) as Ha.
  pose proof (escape_length s) as Hs.
  destruct (markup_char a || Ascii.eqb a amp); simpl; intros H.
  - lia.
  - apply IH. lia.
Qed.

(** [html.escape] never gives the same text for two different texts. *)
Lemma escape_inj (s1 s2 : string) : escape s1 = escape s2 -> s1 = s2.
Proof.
  revert s2. induction s1 as [|a s1 IH]; intros [|b s2].
  - reflexivity.
  - rewrite HtmlFacts.escape_cons. destruct (escape_char_head b) as [r ->].
    discriminate.
  - rewrite HtmlFacts.escape_cons. destruct (escape_char_head a) as [r ->].
    discriminate.
  - rewrite !HtmlFacts.escape_cons. intros H.
    destruct (markup_char a || Ascii.eqb a amp) eqn:Ea;
      destruct (markup_char b || Ascii.eqb b amp) eqn:Eb.
    + destruct (special_cases a Ea) as [->|[->|[->|[->| ->]]]];
        destruct (special_cases b Eb) as [->|[->|[->|[->| ->]]]];
        cbn in H; try discriminate H;
        f_equal; apply IH; injection H; trivial.
    + rewrite (escape_char_plain b Eb) in H.
      destruct (special_cases a Ea) as [->|[->|[->|[->| ->]]]];
        cbn in H; injection H as Hb _; subst b; discriminate Eb.
    + rewrite (escape_char_plain a Ea) in H.
      destruct (special_cases b Eb) as [->|[->|[->|[->| ->]]]];
        cbn in H; injection H as Hb _; subst a; discriminate Ea.
    + rewrite (escape_char_plain a Ea), (escape_char_plain b Eb) in H.
      cbn in H. injection H as -> H. f_equal. now apply IH.
Qed.

End EscapeFacts.

(* ===================================================================== *)
(** ** Users: registration, lookup and profile *)
(* ===================================================================== *)

Module UserFacts.
Import Store Props.

Lemma find_last {A : Type} (f : A -> bool) (l : list A) (x : A) :
  find f (l ++ [x])
  = match find f l with
    | Some y => Some y
    | None => if f x then Some x else None
    end.
Proof.
  induction l as [|y l IH]; simpl; [reflexivity|].
  destruct (f y); [reflexivity | exact IH].
Qed.

Lemma find_none_existsb {A : Type} (f : A -> bool) (l : list A) :
  find f l = None -> existsb f l = false.
Proof.
  induction l as [|y l IH]; simpl; [reflexivity|].
  destruct (f y); [discriminate | exact IH].
Qed.

(** X1. The row [get_user] returns for a name is a stored row whose
    username is the escaped name, and no other name finds that row. *)
Theorem get_user_key (d : DB) (name : string) (u : User) :
  get_user d name = Some u ->
  In u (Users d)
  /\ username u = Html.escape name
  /\ forall other, get_user d other = Some u -> other = name.
Proof.
  unfold get_user. intros H. apply find_some in H. destruct H as [Hin Hn].
  apply String.eqb_eq in Hn. repeat split; try assumption.
  intros other Ho. apply find_some in Ho. destruct Ho as [_ Ho].
  apply String.eqb_eq in Ho. apply EscapeFacts.escape_inj. congruence.
Qed.

(** X2. [create_post] stores a text as it was submitted exactly when the
    text holds none of the five characters [html.escape] rewrites, and
    only for such a text does escaping a second time change nothing. *)
Theorem create_post_keeps_plain_text (now : Z) (d : DB) (uid : Z)
    (text img : string) :
  (Posts (fst (create_post now d uid text img))
   = (Posts d ++ [mkPost (fresh_id (map p_id (Posts d))) uid text img now])%list
   <-> plain text = true)
  /\ (Html.escape (Html.escape text) = Html.escape text
      <-> plain text = true).
Proof.
  assert (Hfix : Html.escape text = text <-> plain text = true).
  { split; [|apply HtmlFacts.escape_plain].
    intros H. apply EscapeFacts.escape_same_length_plain. now rewrite H. }
  split.
  - rewrite <- Hfix. unfold create_post. cbn [fst Posts].
    fold (Html.escape text). split.
    + intros H. apply app_inv_head in H. injection H as H. exact H.
    + intros H. now rewrite H.
  - rewrite <- Hfix. split.
    + apply EscapeFacts.escape_inj.
    + intros H. now rewrite H.
Qed.

Lemma create_user_fresh (sch : Schema) (d : DB)
    (name first last pw : string) :
  get_user d name = None ->
  let row := mkUser (fresh_id (map id (Users d))) (Html.escape name)
               (Html.escape first) (Html.escape last) (Html.escape pw)
               (profile_default sch) (profile_default sch)
               (profile_default sch) (profile_default sch)
               (profile_default sch) (profile_default sch) in
  let d' := mkDB (Users d ++ [row]) (Posts d) (Comments d) (Friends d) in
  create_user sch d name first last pw = Returned (d', 1)
  /\ ~ In (id row) (map id (Users d))
  /\ get_user d' name = Some row
  /\ forall other, other <> name -> get_user d' other = get_user d other.
Proof.
  intros Hnone row d'. unfold get_user in Hnone.
  split; [|split; [|split]].
  - unfold create_user. rewrite (find_none_existsb _ _ Hnone).
    now rewrite andb_false_r.
  - apply Invariant.fresh_id_new.
  - unfold get_user, d'. simpl. rewrite find_last, Hnone. simpl.
    now rewrite String.eqb_refl.
  - intros other Hne. unfold get_user, d'. cbn [Users]. rewrite find_last.
    destruct (find (fun u => String.eqb (username u) (Html.escape other))
                (Users d)); [reflexivity|].
    cbn [username row].
    destruct (String.eqb (Html.escape name) (Html.escape other)) eqn:E;
      [|reflexivity].
    apply String.eqb_eq in E. apply EscapeFacts.escape_inj in E.
    congruence.
Qed.

(** X3. Registering a name [get_user] does not find goes through under
    either schema: it reports one row, adds one row at the end with a new
    id, the escaped name, first name, last name and password and the
    default profile, [get_user] then finds that row under the name, and
    finds under every other name what it found before. *)
Theorem create_user_then_get_user (sch : Schema) (d : DB)
    (name first last pw : string) :
  get_user d name = None ->
  let row := mkUser (fresh_id (map id (Users d))) (Html.escape name)
               (Html.escape first) (Html.escape last) (Html.escape pw)
               (profile_default sch) (profile_default sch)
               (profile_default sch) (profile_default sch)
               (profile_default sch) (profile_default sch) in
  let d' := mkDB (Users d ++ [row]) (Posts d) (Comments d) (Friends d) in
  create_user sch d name first last pw = Returned (d', 1)
  /\ ~ In (id row) (map id (Users d))
  /\ get_user d' name = Some row
  /\ forall other, other <> name -> get_user d' other = get_user d other.
Proof.
  exact (create_user_fresh sch d name first last pw).
Qed.

Lemma filter_named_unique (name : string) (l : list User) (u : User) :
  NoDup (map username l) -> find (named name) l = Some u ->
  filter (named name) l = [u].
Proof.
  induction l as [|v l IH]; simpl; [discriminate|].
  intros Hnd Hf. inversion Hnd as [|k ks Hnotin Hnd']; subst.
  destruct (named name v) eqn:E.
  - inversion Hf; subst v. f_equal.
    apply String.eqb_eq in E.
    clear IH Hf Hnd Hnd'. induction l as [|x l IH]; [reflexivity|].
    simpl. destruct (named name x) eqn:Ex.
    + apply String.eqb_eq in Ex. exfalso. apply Hnotin. left. congruence.
    + apply IH. intros H. apply Hnotin. now right.
  - now apply IH.
Qed.

Lemma filter_named_none (name : string) (l : list User) :
  find (named name) l = None <-> filter (named name) l = [].
Proof.
  induction l as [|v l IH]; simpl; [tauto|].
  destruct (named name v); [split; discriminate | exact IH].
Qed.

(** X5. [update_profile] reports no row exactly when [get_user] finds no
    user of that name; when usernames are pairwise different and the user
    is found, it reports one row. *)
Theorem update_profile_rowcount (d : DB)
    (name e m mu mo n b : string) :
  (snd (update_profile d name e m mu mo n b) = 0 <-> get_user d name = None)
  /\ (usernames_unique d ->
      forall u, get_user d name = Some u ->
      snd (update_profile d name e m mu mo n b) = 1).
Proof.
  unfold update_profile, get_user. simpl. fold (named name). split.
  - rewrite filter_named_none. split.
    + intros H. destruct (filter (named name) (Users d)); [reflexivity|].
      simpl in H. lia.
    + now intros ->.
  - intros Hnd u Hu.
    now rewrite (filter_named_unique name (Users d) u Hnd Hu).
Qed.

Lemma update_where_twice (hit : User -> bool) (set : User -> User)
    (l : list User) :
  (forall u, hit (set u) = hit u) -> (forall u, set (set u) = set u) ->
  let g := fun u => if hit u then set u else u in
  map g (map g l) = map g l
  /\ length (filter hit (map g l)) = length (filter hit l).
Proof.
  intros Hhit Hset g.
  assert (Hg : forall u, hit (g u) = hit u).
  { intros u. unfold g. destruct (hit u) eqn:E; [rewrite Hhit|]; exact E. }
  split.
  - rewrite map_map. apply map_ext. intros u. unfold g at 1. rewrite Hg.
    unfold g. destruct (hit u); [apply Hset | reflexivity].
  - induction l as [|u l IH]; [reflexivity|].
    cbn [map filter]. rewrite Hg.
    destruct (hit u); cbn [length]; now rewrite IH.
Qed.

(** X6. Running [update_profile] a second time with the same values
    leaves the store the first run made, and reports the same rows. *)
Theorem update_profile_twice (d : DB) (name e m mu mo n b : string) :
  update_profile (fst (update_profile d name e m mu mo n b))
    name e m mu mo n b
  = update_profile d name e m mu mo n b.
Proof.
  pose proof (update_where_twice (named name)
                (set_profile (Html.escape e) (Html.escape m)
                   (Html.escape mu) (Html.escape mo) (Html.escape n) b)
                (Users d) (fun u => eq_refl) (fun u => eq_refl)) as [H1 H2].
  unfold update_profile. cbn [fst Users Posts Comments Friends].
  f_equal; [f_equal; exact H1 | f_equal; exact H2].
Qed.

End UserFacts.

(* ===================================================================== *)
(** ** Posts, comments and friends: what the queries return *)
(* ===================================================================== *)

Module QueryFacts.
Import Store Props.

Lemma NoDup_map_eq {A B : Type} (f : A -> B) (l : list A) (x y : A) :
  NoDup (map f l) -> In x l -> In y l -> f x = f y -> x = y.
Proof.
  induction l as [|z l IH]; simpl; [contradiction|].
  intros Hnd Hx Hy E. inversion Hnd as [|k ks Hnotin Hnd']; subst.
  destruct Hx as [->|Hx]; destruct Hy as [->|Hy].
  - reflexivity.
  - exfalso. apply Hnotin. rewrite E. now apply in_map.
  - exfalso. apply Hnotin. rewrite <- E. now apply in_map.
  - now apply IH.
Qed.

Lemma hd_error_all {A : Type} (l : list A) (x : A) :
  In x l -> (forall y, In y l -> y = x) -> hd_error l = Some x.
Proof.
  destruct l as [|z l]; simpl; [contradiction|].
  intros _ H. f_equal. apply H. now left.
Qed.

(** The rows of the join of [get_post] that carry the post id. *)
Lemma get_post_rows (d : DB) (post_id : Z) (p : Post) (u : User) :
  In (p, u)
    (filter (fun pu => p_id (fst pu) =? post_id)
       (flat_map
          (fun p => map (pair p)
                      (filter (fun u => p_u_id p =? id u) (Users d)))
          (Posts d)))
  <-> In p (Posts d) /\ p_id p = post_id
      /\ In u (Users d) /\ id u = p_u_id p.
Proof.
  rewrite filter_In, in_flat_map. simpl. rewrite Z.eqb_eq. split.
  - intros [[p' [Hp H]] Hid]. apply in_map_iff in H.
    destruct H as [u' [E H]]. inversion E; subst.
    apply filter_In in H. destruct H as [Hu Hj]. apply Z.eqb_eq in Hj.
    auto.
  - intros [Hp [Hid [Hu Hj]]]. split; [|exact Hid].
    exists p. split; [exact Hp|]. apply in_map. apply filter_In.
    split; [exact Hu|]. apply Z.eqb_eq. now symmetry.
Qed.

(** X7. For a post id that is not a 64-bit integer [get_post] raises
    [OverflowError]. What it returns is a stored post with the id and the
    stored user its [u_id] names. For a 64-bit id, in a store that keeps
    its keys, with pairwise different post ids, it returns a post with
    its author exactly when the post with that id is stored and the
    author is the user its [u_id] names, and returns nothing exactly when
    no post has the id. *)
Theorem get_post_by_id (d : DB) (post_id : Z) :
  (int64 post_id = false -> get_post d post_id = Raised OverflowError)
  /\ (forall p u, get_post d post_id = Returned (Some (p, u)) ->
        int64 post_id = true
        /\ In p (Posts d) /\ p_id p = post_id
        /\ In u (Users d) /\ id u = p_u_id p)
  /\ (keys_ok d -> int64 post_id = true ->
      (forall p u, In p (Posts d) -> p_id p = post_id ->
                   In u (Users d) -> id u = p_u_id p ->
                   get_post d post_id = Returned (Some (p, u)))
      /\ (get_post d post_id = Returned None
          <-> ~ In post_id (map p_id (Posts d)))).
Proof.
  split; [|split].
  - intros H. unfold get_post. now rewrite H.
  - intros p u H. unfold get_post in H.
    destruct (int64 post_id); [|discriminate]. split; [reflexivity|].
    apply get_post_rows.
    destruct (filter _ _) as [|x l]; [discriminate|].
    simpl in H. inversion H. now left.
  - intros [[Hids Hfk] Hpids] Hb. unfold get_post. rewrite Hb.
    assert (Hsome : forall p u, In p (Posts d) -> p_id p = post_id ->
                      In u (Users d) -> id u = p_u_id p ->
                      hd_error
                        (filter (fun pu => p_id (fst pu) =? post_id)
                           (flat_map
                              (fun p => map (pair p)
                                 (filter (fun u => p_u_id p =? id u)
                                    (Users d)))
                              (Posts d)))
                      = Some (p, u)).
    { intros p u Hp Hid Hu Hj. apply hd_error_all.
      - apply get_post_rows. auto.
      - intros [p' u'] H. apply get_post_rows in H.
        destruct H as [Hp' [Hid' [Hu' Hj']]].
        assert (p' = p) by
          (apply (NoDup_map_eq p_id (Posts d)); congruence).
        subst p'.
        assert (u' = u) by
          (apply (NoDup_map_eq id (Users d)); congruence).
        now subst u'. }
    split; [intros p u Hp Hid Hu Hj; now rewrite (Hsome p u)|]. split.
    + intros Hnone Hin. apply in_map_iff in Hin.
      destruct Hin as [p [Hid Hp]].
      pose proof (Hfk p Hp) as Hu. apply in_map_iff in Hu.
      destruct Hu as [u [Hj Hu]].
      rewrite (Hsome p u Hp Hid Hu Hj) in Hnone. discriminate.
    + intros Hnot.
      destruct (filter _ _) as [|[p u] l] eqn:F; [reflexivity|].
      exfalso. apply Hnot.
      assert (Hin : In (p, u) ((p, u) :: l)) by now left.
      rewrite <- F in Hin. apply get_post_rows in Hin.
      destruct Hin as [Hp [Hid _]]. rewrite <- Hid. now apply in_map.
Qed.

Lemma get_comments_In (d : DB) (post_id : Z) (c : Comment) (u : User) :
  In (c, u) (get_comments d post_id)
  <-> In c (Comments d) /\ c_p_id c = post_id
      /\ In u (Users d) /\ c_u_id c = id u.
Proof.
  unfold get_comments. split.
  - intros H.
    eapply Permutation_in in H;
      [|apply Permutation_sym, StoreFacts.order_by_desc_perm].
    apply nodup_In in H. apply filter_In in H. destruct H as [H Hp].
    simpl in Hp. apply Z.eqb_eq in Hp. apply in_flat_map in H.
    destruct H as [c' [Hc H]]. apply in_map_iff in H.
    destruct H as [u' [E H]]. inversion E; subst.
    apply filter_In in H. destruct H as [Hu Hj]. apply Z.eqb_eq in Hj.
    auto.
  - intros [Hc [Hp [Hu Hj]]].
    eapply Permutation_in; [apply StoreFacts.order_by_desc_perm|].
    apply nodup_In. apply filter_In. split.
    + apply in_flat_map. exists c. split; [exact Hc|].
      apply in_map. apply filter_In. split; [exact Hu|].
      now apply Z.eqb_eq.
    + simpl. now apply Z.eqb_eq.
Qed.

(** X8. [get_comments] lists, once each and descending by creation time,
    the pairs of a stored comment on the post and a stored user whose id
    is the comment's [u_id]. *)
Theorem get_comments_thread (d : DB) (post_id : Z) :
  (forall c u, In (c, u) (get_comments d post_id)
     <-> In c (Comments d) /\ c_p_id c = post_id
         /\ In u (Users d) /\ c_u_id c = id u)
  /\ NoDup (get_comments d post_id)
  /\ StronglySorted (desc (fun cu => c_creation_time (fst cu)))
       (get_comments d post_id).
Proof.
  split; [|split].
  - intros c u. apply get_comments_In.
  - unfold get_comments.
    eapply Permutation_NoDup; [apply StoreFacts.order_by_desc_perm|].
    apply NoDup_nodup.
  - apply StoreFacts.order_by_desc_sorted.
Qed.

Lemma get_friends_In (d : DB) (user_id : Z) (u : User) :
  In u (get_friends d user_id)
  <-> In u (Users d)
      /\ In (mkFriend user_id (id u)) (Friends d)
      /\ id u <> user_id.
Proof.
  unfold get_friends. rewrite in_map_iff. split.
  - intros [[f u'] [E H]]. simpl in E. subst u'.
    apply filter_In in H. destruct H as [H Hc]. simpl in Hc.
    apply andb_true_iff in Hc. destruct Hc as [Hs Hn].
    apply Z.eqb_eq in Hs. apply negb_true_iff, Z.eqb_neq in Hn.
    apply in_flat_map in H. destruct H as [f' [Hf H]].
    apply in_map_iff in H. destruct H as [u' [E H]].
    inversion E; subst. apply filter_In in H. destruct H as [Hu Hj].
    apply Z.eqb_eq in Hj. destruct f as [x y]. simpl in *. subst.
    auto.
  - intros [Hu [Hf Hn]]. exists (mkFriend user_id (id u), u).
    split; [reflexivity|]. apply filter_In. split.
    + apply in_flat_map. exists (mkFriend user_id (id u)).
      split; [exact Hf|]. apply in_map. apply filter_In.
      split; [exact Hu | apply Z.eqb_refl].
    + simpl. rewrite Z.eqb_refl. simpl.
      apply negb_true_iff, Z.eqb_neq. exact Hn.
Qed.

(** X11. [get_friends] lists the stored users at the end of an edge that
    starts at [user_id], and never the user [user_id] itself. *)
Theorem get_friends_edges (d : DB) (user_id : Z) (u : User) :
  In u (get_friends d user_id)
  <-> In u (Users d)
      /\ In (mkFriend user_id (id u)) (Friends d)
      /\ id u <> user_id.
Proof.
  exact (get_friends_In d user_id u).
Qed.

Lemma order_by_desc_map {A : Type} (key : A -> Z) (g : A -> A)
    (l : list A) :
  (forall x, key (g x) = key x) ->
  order_by_desc key (map g l) = map g (order_by_desc key l).
Proof.
  intros Hk. induction l as [|x l IH]; [reflexivity|].
  cbn [map order_by_desc]. rewrite IH. generalize (order_by_desc key l).
  clear IH. intros s. induction s as [|y s IH]; [reflexivity|].
  cbn [map insert_desc]. rewrite !Hk.
  destruct (key y <=? key x); [reflexivity|]. cbn [map]. now rewrite IH.
Qed.

Lemma comment_count_new (now : Z) (d : DB) (post_id uid : Z)
    (text : string) (pid : Z) :
  comment_count
    (mkDB (Users d) (Posts d)
       (Comments d ++ [mkComment (fresh_id (map c_id (Comments d))) post_id
                         uid (Html.escape text) now])
       (Friends d)) pid
  = if pid =? post_id then S (comment_count d pid) else comment_count d pid.
Proof.
  unfold comment_count. cbn [Comments].
  rewrite filter_app, length_app. cbn [filter c_p_id].
  rewrite (Z.eqb_sym post_id pid).
  destruct (pid =? post_id); cbn [length]; lia.
Qed.

(** X10. A new comment on a post changes the feed of every user in one
    way only: the row of that post counts one comment more. The threads
    of all other posts stay as they were. When sqlite3 cannot bind the
    post id nothing is stored and the feeds stay as they were too. *)
Theorem create_comment_counts (now : Z) (d : DB) (post_id uid : Z)
    (text : string) :
  let d' := after (create_comment now d post_id uid text) d in
  (forall u, get_posts d' u
             = if int64 post_id
               then map (bump_cc post_id) (get_posts d u)
               else get_posts d u)
  /\ (forall other, other <> post_id ->
        get_comments d' other = get_comments d other).
Proof.
  unfold create_comment. destruct (int64 post_id); cbn [after];
    [|now split].
  split.
  - intros u. unfold get_posts.
    rewrite <- order_by_desc_map;
      [|intros r; unfold bump_cc;
        now destruct (p_id (row_post r) =? post_id)].
    f_equal. rewrite map_map. apply map_ext. intros [p a].
    unfold bump_cc. cbn [fst snd row_post row_user cc Users Posts Friends].
    rewrite comment_count_new.
    now destruct (p_id p =? post_id).
  - intros other Hne. unfold get_comments.
    cbn [fst Users Comments]. rewrite flat_map_app, filter_app.
    cbn [flat_map c_u_id]. rewrite app_nil_r.
    assert (E : filter (fun cu : Comment * User => c_p_id (fst cu) =? other)
                  (map (pair (mkComment (fresh_id (map c_id (Comments d)))
                                post_id uid (Html.escape text) now))
                     (filter (fun u => uid =? id u) (Users d))) = []).
    { induction (filter (fun u => uid =? id u) (Users d)) as [|x l IH];
        [reflexivity|].
      cbn [map filter fst c_p_id].
      apply Z.eqb_neq in Hne. rewrite (Z.eqb_sym post_id other), Hne.
      exact IH. }
    cbn [c_u_id] in E |- *. rewrite E. now rewrite app_nil_r.
Qed.

End QueryFacts.

(* ===================================================================== *)
(** ** What a request can do to the store *)
(* ===================================================================== *)

Module EffectFacts.
Import Store Routes Props.

(** The store after each view function: as before, or after the one write
    the function makes. *)
Lemma friends_db (w : World) (uname : string) (form : FriendsForm) :
  db (fst (friends uname form w)) = db w
  \/ exists a f,
       get_user (db w) uname = Some a
       /\ get_user (db w) (friends_username form) = Some f
       /\ db (fst (friends uname form w)) = with_edge (db w) (id a) (id f).
Proof.
  unfold friends, bind, query.
  destruct (get_user (db w) uname) as [a|] eqn:Ha;
    destruct (friends_validate_on_submit form); simpl; try (now left).
  destruct (get_user (db w) (friends_username form)) as [f|] eqn:Hf; simpl;
    [|now left].
  destruct (id f =? id a); simpl; [now left|].
  destruct (existsb (Z.eqb (id f)) (get_friend (db w) (id a))); simpl;
    [now left|].
  right. exists a, f. auto.
Qed.

Lemma profile_db (w : World) (uname : string) (form : ProfileForm) :
  db (fst (profile uname form w)) = db w
  \/ db (fst (profile uname form w))
     = fst (update_profile (db w) uname (profile_education form)
              (profile_employment form) (profile_music form)
              (profile_movie form) (profile_nationality form)
              (profile_birthday form)).
Proof.
  unfold profile, bind, query, execute, ret.
  destruct (profile_validate_on_submit form); [right | now left].
  now destruct (update_profile _ _ _ _ _ _ _ _).
Qed.

(** Without a valid submission of the register form [index] flashes at
    most one message and does nothing else. *)
Lemma index_not_register (sch : Schema) (gen : string -> string)
    (chk : string -> string -> bool)
    (len : string -> nat) (alnum : string -> bool)
    (form : IndexForm) (w : World) :
  register_request form = false ->
  fst (index sch gen chk len alnum form w) = w
  \/ exists message category,
       fst (index sch gen chk len alnum form w) = flashed w message category.
Proof.
  unfold register_request, index, index_body, bind, query, run_create_user.
  destruct (String.eqb (request_method form) "POST"); [|now left].
  destruct (login_is_submitted (login form));
    destruct (login_submit (login form)); cbn [andb negb];
    try (destruct (register_is_submitted (register form));
         destruct (register_submit (register form)); cbn [andb];
         try (now left);
         intros ->; right; eexists; eexists; reflexivity).
  intros _. destruct (login_validate_on_submit (login form));
    [|right; eexists; eexists; reflexivity].
  destruct (get_user (db w) (login_username (login form))) as [u|];
    [|right; eexists; eexists; reflexivity].
  destruct (chk (password u) (Html.escape (login_password (login form))));
    [now left | right; eexists; eexists; reflexivity].
Qed.

Lemma index_db (sch : Schema) (gen : string -> string)
    (chk : string -> string -> bool)
    (len : string -> nat) (alnum : string -> bool)
    (form : IndexForm) (w : World) :
  db (fst (index sch gen chk len alnum form w)) = db w
  \/ (register_request form = true
      /\ exists n,
           create_user sch (db w) (register_username (register form))
             (register_first_name (register form))
             (register_last_name (register form))
             (gen (register_password (register form)))
           = Returned (db (fst (index sch gen chk len alnum form w)), n)).
Proof.
  destruct (register_request form) eqn:Hr.
  - rewrite (RouteFacts.index_register_submit sch gen chk len alnum form w Hr).
    destruct (create_user _ _ _ _ _ _) as [[d' n]|e]; [|now left].
    right. split; [reflexivity|]. exists n.
    now destruct (n =? 1).
  - left.
    destruct (index_not_register sch gen chk len alnum form w Hr)
      as [->|[m [c ->]]];
      reflexivity.
Qed.

(** *** The store only grows *)

Lemma grows_refl {A : Type} (l : list A) : grows l l.
Proof. exists []. now rewrite app_nil_r. Qed.

Lemma grows_one {A : Type} (l : list A) (x : A) : grows l (l ++ [x]).
Proof. now exists [x]. Qed.

Lemma extends_refl (d : DB) : extends d d.
Proof. repeat split; apply grows_refl. Qed.

Lemma create_user_extends (sch : Schema) (d d' : DB)
    (name first last pw : string) (n : Z) :
  create_user sch d name first last pw = Returned (d', n) -> extends d d'.
Proof.
  unfold create_user. destruct (username_unique sch && _); [discriminate|].
  intros H. inversion H; subst; clear H. repeat split; simpl;
    try apply grows_refl.
  rewrite map_app. apply grows_one.
Qed.

Lemma update_profile_extends (d : DB) (name e m mu mo n b : string) :
  extends d (fst (update_profile d name e m mu mo n b)).
Proof.
  repeat split; simpl; try apply grows_refl.
  rewrite map_map.
  erewrite map_ext; [apply grows_refl|].
  intros u. simpl.
  now destruct (String.eqb (username u) (Html.escape name)).
Qed.

(** X17. As long as the write of an upload does not touch the store, no
    request takes anything out of it: after each of the five view
    functions, whether it returned or raised, every account (id, username,
    names, password), post, comment and edge that was stored is still
    stored, unchanged and in its place. For the four view functions that
    write no file this holds on every file system. *)
Theorem requests_only_add (sch : Schema) (gen : string -> string)
    (chk : string -> string -> bool)
    (len : string -> nat) (alnum : string -> bool) (write : Disk)
    (w : World) (uname : string) (post_id : Z) :
  (forall form,
     extends (db w) (db (fst (index sch gen chk len alnum form w))))
  /\ (leaves_store write ->
      forall form, extends (db w) (db (fst (stream write uname form w))))
  /\ (forall form, extends (db w) (db (fst (comments uname post_id form w))))
  /\ (forall form, extends (db w) (db (fst (friends uname form w))))
  /\ (forall form, extends (db w) (db (fst (profile uname form w)))).
Proof.
  split; [|split; [|split; [|split]]]; [|intros Hl| | |]; intros form.
  - destruct (index_db sch gen chk len alnum form w) as [->|[_ [n H]]];
      [apply extends_refl|].
    exact (create_user_extends sch (db w) _ _ _ _ _ n H).
  - destruct (RouteFacts.stream_db write w uname form Hl)
      as [->|[u [fs [_ [_ ->]]]]]; [apply extends_refl|].
    repeat split; simpl; try apply grows_refl. apply grows_one.
  - destruct (RouteFacts.comments_db w uname post_id form)
      as [->|[u [n [_ H]]]]; [apply extends_refl|].
    unfold create_comment in H. destruct (int64 post_id); [|discriminate].
    injection H as Hd Hn. rewrite <- Hd.
    repeat split; simpl; try apply grows_refl. apply grows_one.
  - destruct (friends_db w uname form) as [->|[a [f [_ [_ ->]]]]];
      [apply extends_refl|].
    repeat split; simpl; try apply grows_refl. apply grows_one.
  - destruct (profile_db w uname form) as [->| ->];
      [apply extends_refl | apply update_profile_extends].
Qed.

(** X14. [index] writes to the store only for a valid submission of the
    register form: any other request, a login of any kind among them,
    leaves the store, the clock and the uploads as they were. *)
Theorem index_writes_only_on_register (sch : Schema)
    (gen : string -> string) (chk : string -> string -> bool)
    (len : string -> nat) (alnum : string -> bool)
    (form : IndexForm) (w : World) :
  register_request form = false ->
  db (fst (index sch gen chk len alnum form w)) = db w
  /\ clock (fst (index sch gen chk len alnum form w)) = clock w
  /\ uploads (fst (index sch gen chk len alnum form w)) = uploads w.
Proof.
  intros Hr.
  destruct (index_not_register sch gen chk len alnum form w Hr)
    as [->|[m [c ->]]];
    now repeat split.
Qed.

(** X13. A request that submits no valid form changes nothing at all: the
    four pages leave the world as it was, returning or raising, and so
    does [index] for a request that is not a POST. *)
Theorem views_change_nothing (sch : Schema) (gen : string -> string)
    (chk : string -> string -> bool)
    (len : string -> nat) (alnum : string -> bool) (write : Disk)
    (w : World) (uname : string) (post_id : Z) (idx : IndexForm)
    (pf : PostForm) (cf : CommentsForm) (ff : FriendsForm)
    (prf : ProfileForm) :
  String.eqb (request_method idx) "POST" = false ->
  post_validate_on_submit pf = false ->
  comments_validate_on_submit cf = false ->
  friends_validate_on_submit ff = false ->
  profile_validate_on_submit prf = false ->
  index sch gen chk len alnum idx w
  = (w, Returned (Render "index.html.j2" IndexView))
  /\ fst (stream write uname pf w) = w
  /\ fst (comments uname post_id cf w) = w
  /\ fst (friends uname ff w) = w
  /\ fst (profile uname prf w) = w.
Proof.
  intros Hi Hp Hc Hf Hpr. split; [|split; [|split; [|split]]].
  - unfold index, index_body, bind. now rewrite Hi.
  - unfold stream, bind, query. rewrite Hp.
    now destruct (get_user (db w) uname).
  - unfold comments, bind, query, fetch. rewrite Hc. cbn.
    now destruct (get_post (db w) post_id).
  - unfold friends, bind, query. rewrite Hf.
    now destruct (get_user (db w) uname).
  - unfold profile, bind, query. now rewrite Hpr.
Qed.

End EffectFacts.

(* ===================================================================== *)
(** ** A write and the page that shows it *)
(* ===================================================================== *)

Module RoundTrips.
Import Store Routes Props.

(** *** Keys *)

Lemma NoDup_last {A : Type} (l : list A) (x : A) :
  NoDup l -> ~ In x l -> NoDup (l ++ [x]).
Proof.
  intros Hnd Hx. eapply Permutation_NoDup; [apply Permutation_cons_append|].
  now constructor.
Qed.

Lemma create_user_keys (sch : Schema) (d d' : DB)
    (name first last pw : string) (n : Z) :
  username_unique sch = true ->
  keys_ok d -> usernames_unique d ->
  create_user sch d name first last pw = Returned (d', n) ->
  keys_ok d' /\ usernames_unique d'.
Proof.
  intros Hu [Hok Hp] Hn H.
  pose proof (Invariant.create_user_ok sch d d' name first last pw n Hok H)
    as Hok'.
  unfold create_user in H. rewrite Hu in H. cbn [andb] in H.
  destruct (existsb _ (Users d)) eqn:E; [discriminate|].
  inversion H; subst; clear H. repeat split; try apply Hok'; try exact Hp.
  unfold usernames_unique. cbn [Users]. rewrite map_app. cbn [map username].
  apply NoDup_last; [exact Hn|].
  intros Hin. apply in_map_iff in Hin. destruct Hin as [u [Hname Hin]].
  assert (existsb (fun u => String.eqb (username u) (Html.escape name))
            (Users d) = true) as E'.
  { apply existsb_exists. exists u. split; [exact Hin|].
    now apply String.eqb_eq. }
  congruence.
Qed.

Lemma create_post_keys (now : Z) (d : DB) (u : User) (text img : string) :
  In u (Users d) -> keys_ok d ->
  keys_ok (fst (create_post now d (id u) text img)).
Proof.
  intros Hin [Hok Hp]. split.
  - apply Invariant.create_post_ok; [exact Hok | now apply in_map].
  - cbn [fst create_post Posts]. rewrite map_app. cbn [map p_id].
    apply NoDup_last; [exact Hp | apply Invariant.fresh_id_new].
Qed.

Lemma update_profile_keys (d : DB) (name e m mu mo n b : string) :
  keys_ok d -> usernames_unique d ->
  keys_ok (fst (update_profile d name e m mu mo n b))
  /\ usernames_unique (fst (update_profile d name e m mu mo n b)).
Proof.
  intros [Hok Hp] Hn. repeat split.
  - apply (Invariant.update_profile_ok d name e m mu mo n b Hok).
  - apply (Invariant.update_profile_ok d name e m mu mo n b Hok).
  - exact Hp.
  - unfold usernames_unique. cbn [fst update_profile Users].
    rewrite map_map. erewrite map_ext; [exact Hn|].
    intros u. cbn beta.
    now destruct (String.eqb (username u) (Html.escape name)).
Qed.

(** X4. With the uniqueness of usernames enforced by the schema, every
    view function that starts on a store in which user ids, post ids and
    usernames are pairwise different and the author of every post is a
    user leaves such a store, whether it returns or raises; for [stream],
    the one that writes files, as long as the write of an upload does not
    touch the store. *)
Theorem requests_keep_keys (sch : Schema) (gen : string -> string)
    (chk : string -> string -> bool)
    (len : string -> nat) (alnum : string -> bool) (write : Disk)
    (w : World) (uname : string) (post_id : Z) :
  username_unique sch = true ->
  keys_ok (db w) -> usernames_unique (db w) ->
  (forall form,
     keys_ok (db (fst (index sch gen chk len alnum form w)))
     /\ usernames_unique (db (fst (index sch gen chk len alnum form w))))
  /\ (leaves_store write ->
      forall form,
        keys_ok (db (fst (stream write uname form w)))
        /\ usernames_unique (db (fst (stream write uname form w))))
  /\ (forall form,
        keys_ok (db (fst (comments uname post_id form w)))
        /\ usernames_unique (db (fst (comments uname post_id form w))))
  /\ (forall form, keys_ok (db (fst (friends uname form w)))
                   /\ usernames_unique (db (fst (friends uname form w))))
  /\ (forall form, keys_ok (db (fst (profile uname form w)))
                   /\ usernames_unique (db (fst (profile uname form w)))).
Proof.
  intros Hu Hk Hn.
  split; [|split; [|split; [|split]]]; [|intros Hl| | |]; intros form.
  - destruct (EffectFacts.index_db sch gen chk len alnum form w)
      as [->|[_ [n H]]]; [now split|].
    exact (create_user_keys sch (db w) _ _ _ _ _ n Hu Hk Hn H).
  - destruct (RouteFacts.stream_db write w uname form Hl)
      as [->|[u [fs [Hg [_ ->]]]]]; [now split|].
    split; [|exact Hn]. apply create_post_keys; [|exact Hk].
    unfold get_user in Hg. now apply find_some in Hg.
  - destruct (RouteFacts.comments_db w uname post_id form)
      as [->|[u [n [_ H]]]]; [now split|].
    unfold create_comment in H. destruct (int64 post_id); [|discriminate].
    injection H as Hd _. rewrite <- Hd. now split.
  - destruct (EffectFacts.friends_db w uname form)
      as [->|[a [f [_ [_ ->]]]]]; now split.
  - destruct (EffectFacts.profile_db w uname form) as [->| ->];
      [now split | now apply update_profile_keys].
Qed.

(** *** Comments *)

(** X9. A valid comment by an existing user under a post id that is a
    64-bit integer is stored, with its text escaped and the time of the
    server clock, whether or not a post has that id; the page rendered by
    the same request shows the post as it is looked up and a thread that
    holds the new comment with its author. Under any other post id the
    request ends with [OverflowError] and nothing is stored. *)
Theorem comments_submit_thread (w : World) (uname : string) (post_id : Z)
    (form : CommentsForm) (u : User) :
  get_user (db w) uname = Some u ->
  comments_validate_on_submit form = true ->
  let c := mkComment (fresh_id (map c_id (Comments (db w)))) post_id (id u)
             (Html.escape (comments_comment form)) (clock w) in
  let d' := mkDB (Users (db w)) (Posts (db w)) (Comments (db w) ++ [c])
              (Friends (db w)) in
  if int64 post_id
  then exists post,
         get_post (db w) post_id = Returned post
         /\ comments uname post_id form w
            = (with_db w d',
               Returned (Render "comments.html.j2"
                           (CommentsView uname post
                              (get_comments d' post_id))))
         /\ In (c, u) (get_comments d' post_id)
  else comments uname post_id form w = (w, Raised OverflowError).
Proof.
  intros Hu Hv c d'.
  unfold comments, bind, query, fetch, try_execute_now, user_id, ret.
  rewrite Hu, Hv. unfold create_comment, get_post.
  destruct (int64 post_id) eqn:Hb; [|reflexivity].
  eexists. split; [reflexivity|]. split; [reflexivity|].
  apply QueryFacts.get_comments_In. unfold d', c. cbn.
  repeat split.
  - apply in_or_app. right. now left.
  - unfold get_user in Hu. now apply find_some in Hu.
Qed.

(** *** Friends *)

Lemma filter_by_id (a : Z) (users : list User) (u : User) :
  NoDup (map id users) -> In u users -> id u = a ->
  filter (fun v => a =? id v) users = [u].
Proof.
  intros Hnd Hin Ha.
  rewrite <- (StoreFacts.filter_id_unique a users u Hnd Hin Ha).
  apply filter_ext. intros v. apply Z.eqb_sym.
Qed.

Lemma get_friends_new_edge (d : DB) (a : Z) (f : User) :
  NoDup (map id (Users d)) -> In f (Users d) -> id f <> a ->
  get_friends (with_edge d a (id f)) a = (get_friends d a ++ [f])%list.
Proof.
  intros Hnd Hin Hne. unfold get_friends, with_edge. cbn [Users Friends].
  rewrite flat_map_app, filter_app, map_app. f_equal.
  cbn [flat_map f_id]. rewrite app_nil_r.
  rewrite (filter_by_id (id f) (Users d) f Hnd Hin eq_refl).
  cbn [map filter fst u_id f_id]. rewrite Z.eqb_refl.
  apply Z.eqb_neq in Hne. rewrite Hne. reflexivity.
Qed.

(** X12. When a friend is added, in a store with pairwise different user
    ids, the page rendered by the same request lists, in some order, the
    friends listed before and the new friend. *)
Theorem friends_add_listed (w : World) (uname : string)
    (form : FriendsForm) (a f : User) :
  NoDup (map id (Users (db w))) ->
  get_user (db w) uname = Some a ->
  friends_validate_on_submit form = true ->
  may_befriend (db w) a (friends_username form) f ->
  exists listed,
    snd (friends uname form w)
    = Returned (Render "friends.html.j2" (FriendsView uname listed))
    /\ Permutation listed (f :: get_friends (db w) (id a)).
Proof.
  intros Hnd Ha Hv Hm. pose proof Hm as [Hf [Hne _]].
  rewrite (RouteFacts.friends_submit w uname form a Ha Hv), Hf.
  apply (RouteFacts.may_befriend_test (db w) a f _ Hf) in Hm.
  destruct Hm as [-> ->]. cbn [snd].
  eexists. split; [reflexivity|].
  rewrite get_friends_new_edge; [| exact Hnd | | exact Hne].
  - apply Permutation_sym, Permutation_cons_append.
  - unfold get_user in Hf. now apply find_some in Hf.
Qed.

(** *** Registration and login *)

(** X15. After a valid registration of a name that was free, which ends
    in a redirect to the index page, a valid login under that name is let
    in, with a redirect to the stream of the name, exactly when the hasher
    accepts the escaped password of the login for the escaped hash of the
    password of the registration; otherwise it gets the
    invalid-credentials message. *)
Theorem register_then_login (sch : Schema) (gen : string -> string)
    (chk : string -> string -> bool)
    (len : string -> nat) (alnum : string -> bool)
    (w : World) (reg lf : IndexForm) :
  register_request reg = true ->
  get_user (db w) (register_username (register reg)) = None ->
  login_request lf = true ->
  login_username (login lf) = register_username (register reg) ->
  let w1 := fst (index sch gen chk len alnum reg w) in
  snd (index sch gen chk len alnum reg w) = Returned (Redirect "index" None)
  /\ index sch gen chk len alnum lf w1
     = if chk (Html.escape (gen (register_password (register reg))))
            (Html.escape (login_password (login lf)))
       then (w1, Returned (Redirect "stream"
                             (Some (register_username (register reg)))))
       else (flashed w1 "Sorry, username or password is not valid!"
               "warning",
             Returned (Render "index.html.j2" IndexView)).
Proof.
  intros Hr Hnone Hl Hname w1.
  destruct (UserFacts.create_user_fresh sch (db w)
              (register_username (register reg))
              (register_first_name (register reg))
              (register_last_name (register reg))
              (gen (register_password (register reg))) Hnone)
    as [Hc [_ [Hget _]]].
  match type of Hc with _ = Returned (?d, _) => set (d1 := d) in * end.
  assert (Hw1 : index sch gen chk len alnum reg w
                = (flashed (with_db w d1) "User successfully created!"
                     "success",
                   Returned (Redirect "index" None))).
  { rewrite (RouteFacts.index_register_submit sch gen chk len alnum reg w
               Hr), Hc.
    reflexivity. }
  split; [now rewrite Hw1|].
  rewrite (RouteFacts.index_login_submit sch gen chk len alnum lf w1 Hl), Hname.
  unfold w1. rewrite Hw1. cbn [fst db flashed with_db].
  rewrite Hget. cbn [password]. reflexivity.
Qed.

(** *** A new post and the feed *)

Lemma order_by_desc_newest {A : Type} (key : A -> Z) (l : list A) (x : A) :
  Forall (fun y => key y < key x) l ->
  order_by_desc key (l ++ [x]) = x :: order_by_desc key l.
Proof.
  induction 1 as [|y l Hy Hl IH]; [reflexivity|].
  cbn [app order_by_desc]. rewrite IH. cbn [insert_desc].
  apply Z.leb_gt in Hy. now rewrite Hy.
Qed.

Lemma get_posts_new_post (now : Z) (d : DB) (u : User)
    (text img : string) :
  store_ok d -> In u (Users d) ->
  (forall p, In p (Posts d) -> p_creation_time p < now) ->
  let p := mkPost (fresh_id (map p_id (Posts d))) (id u) (Html.escape text)
             img now in
  get_posts (fst (create_post now d (id u) text img)) (id u)
  = mkFeedRow p u (comment_count d (p_id p)) :: get_posts d (id u).
Proof.
  intros [Hnd _] Hin Hnew p. unfold get_posts, create_post.
  cbn [fst Users Posts].
  rewrite flat_map_app, filter_app, map_app.
  cbn [flat_map p_u_id]. rewrite app_nil_r.
  rewrite (StoreFacts.filter_id_unique (id u) (Users d) u Hnd Hin eq_refl).
  cbn [map filter fst snd p_u_id].
  assert (Hw : forall d0, feed_where d0 (id u) (id u) = true).
  { intros d0. unfold feed_where. rewrite Z.eqb_refl. apply orb_true_r. }
  rewrite Hw. cbn [map fst snd].
  apply order_by_desc_newest.
  apply Forall_forall. intros r Hr. apply in_map_iff in Hr.
  destruct Hr as [[q a] [<- Hr]]. cbn [row_post fst p_creation_time].
  apply filter_In in Hr. destruct Hr as [Hr _].
  apply in_flat_map in Hr. destruct Hr as [q' [Hq Hr]].
  apply in_map_iff in Hr. destruct Hr as [a' [E _]].
  inversion E; subst. now apply Hnew.
Qed.

(** X16. After a valid post with a file part by an existing user, when
    the write of the file returns and leaves the store alone (or is not
    made, the file having no name), in a store that keeps its keys and
    whose posts are all older than the server clock: the request redirects
    to the stream, and the next view of the user's stream shows first the
    new post, with its text escaped, the file name as image and the
    clock as time, its author, and the count of the comments stored under
    its id, and after it the rows of the old feed, descending by time. *)
Theorem stream_post_heads_feed (write : Disk) (w : World)
    (uname text : string) (fs : FileStorage) (view : PostForm) (u : User) :
  store_ok (db w) ->
  get_user (db w) uname = Some u ->
  filename fs = "" \/ write fs (db w) = (db w, Returned tt) ->
  (forall p, In p (Posts (db w)) -> p_creation_time p < clock w) ->
  post_validate_on_submit view = false ->
  let p := mkPost (fresh_id (map p_id (Posts (db w)))) (id u)
             (Html.escape text) (filename fs) (clock w) in
  let w1 := fst (stream write uname (mkPostForm true text (Some fs)) w) in
  snd (stream write uname (mkPostForm true text (Some fs)) w)
  = Returned (Redirect "stream" (Some uname))
  /\ exists rest,
       snd (stream write uname view w1)
       = Returned (Render "stream.html.j2"
                     (StreamView uname
                        (mkFeedRow p u (comment_count (db w) (p_id p))
                         :: rest)))
       /\ Permutation rest (get_posts (db w) (id u))
       /\ StronglySorted (desc (fun r => p_creation_time (row_post r))) rest.
Proof.
  intros Hok Hu Hw Hnew Hview p w1.
  destruct (RouteFacts.stream_post_with_file write w uname text fs u Hu Hw)
    as [w' [Hrun Hdb]].
  unfold w1. rewrite Hrun. cbn [fst snd]. split; [reflexivity|].
  assert (Hu' : get_user (db w') uname = Some u) by (now rewrite Hdb).
  exists (get_posts (db w) (id u)).
  split; [|split;
            [apply Permutation_refl | apply StoreFacts.order_by_desc_sorted]].
  unfold stream, bind, query, user_id, ret. rewrite Hview, Hu'.
  cbn [snd]. rewrite Hdb.
  rewrite (get_posts_new_post (clock w) (db w) u text (filename fs) Hok);
    [reflexivity | | exact Hnew].
  unfold get_user in Hu. now apply find_some in Hu.
Qed.

End RoundTrips.

(* ===================================================================== *)
(** ** Properties of the set-up *)
(* ===================================================================== *)

Module ExtensionFacts.
Import Extension.

Lemma contains_last {V : Type} (key : string) (v : V)
    (d : list (string * V)) :
  contains key (d ++ [(key, v)]) = true.
Proof.
  unfold contains. rewrite existsb_app. simpl.
  rewrite String.eqb_refl. now rewrite orb_true_r.
Qed.


(** After [init_app], however it ended, the name is taken. *)
Lemma init_app_registers (ex : Host) (this : SQLite3) (app : App)
    (path schema : option PathArg) :
  exists e,
    extensions (application (init_app ex this app path schema)) = Some e
    /\ contains "sqlite3" e = true.
Proof.
  unfold init_app.
  destruct (contains "sqlite3" _) eqn:E; cbn [negb].
  - eexists. split; [reflexivity | exact E].
  - cbv zeta.
    destruct (is_memory path || _);
      [|destruct (if on_disk ex _ then None else mkdir ex _);
        [|destruct (script schema);
          [destruct (init_database ex _)|]]];
      cbn [application extensions];
      eexists; (split; [reflexivity | apply contains_last]).
Qed.

Lemma init_app_taken (ex : Host) (this : SQLite3) (app : App)
    (path schema : option PathArg) (e : list (string * nat)) :
  extensions app = Some e -> contains "sqlite3" e = true ->
  init_app ex this app path schema
  = mkSetup this app [] (Failed RuntimeError).
Proof.
  intros He Hc. unfold init_app. rewrite He, Hc. cbn [negb].
  destruct app as [x c i t]. cbn in He |- *. now rewrite He.
Qed.

(** X18. An application takes the extension once: after a call of
    [init_app], whether it succeeded or raised, every further call on the
    application, for any object and any arguments, raises [RuntimeError]
    and changes nothing. *)
Theorem init_app_only_once (ex ex' : Host) (this other : SQLite3)
    (app : App) (path schema path' schema' : option PathArg) :
  let app1 := application (init_app ex this app path schema) in
  init_app ex' other app1 path' schema'
  = mkSetup other app1 [] (Failed RuntimeError).
Proof.
  intros app1.
  destruct (init_app_registers ex this app path schema) as [e [He Hc]].
  exact (init_app_taken ex' other app1 path' schema' e He Hc).
Qed.

(** X19. On an application that has not taken the extension, a new
    object given the string [:memory:] as path, or any path while the
    configured path is [:memory:], ends with [ValueError] after it has
    taken the name: it makes no call and has no [_path], so that its
    [connection] raises [AttributeError], and a second set-up with a
    proper path raises [RuntimeError]. *)
Theorem init_app_memory (ex : Host) (identity : nat) (app : App)
    (registered : list (string * nat)) (path schema : option PathArg) :
  match extensions app with Some e => e | None => [] end = registered ->
  contains "sqlite3" registered = false ->
  is_memory path = true
  \/ get "SQLITE3_DATABASE_PATH" (config app) = Some ":memory:" ->
  exists s,
    new ex identity (Some app) path schema = Some s
    /\ ended s = Failed ValueError
    /\ calls s = []
    /\ extensions (application s)
       = Some (registered ++ [("sqlite3", identity)])%list
    /\ teardown_appcontext (application s) = teardown_appcontext app
    /\ connection (object s) (mkG None) = (mkG None, Failed AttributeError)
    /\ forall path' schema',
         ended (init_app ex (object s) (application s) path' schema')
         = Failed RuntimeError.
Proof.
  intros Hreg Hfree Hmem. eexists. split; [reflexivity|].
  assert (E : init_app ex (mkSQLite3 identity None) app path schema
              = mkSetup (mkSQLite3 identity None)
                  (mkApp (Some (registered ++ [("sqlite3", identity)])%list)
                     (config app) (instance_path app)
                     (teardown_appcontext app))
                  [] (Failed ValueError)).
  { unfold init_app. rewrite Hreg, Hfree. cbn [negb self].
    destruct Hmem as [-> | ->]; [reflexivity|].
    rewrite String.eqb_refl. now rewrite orb_true_r. }
  rewrite E. cbn [ended calls application object extensions
                   teardown_appcontext].
  repeat split.
  intros path' schema'.
  erewrite init_app_taken;
    [reflexivity | reflexivity | apply contains_last].
Qed.



End ExtensionFacts.

(* ===================================================================== *)
(** ** Corners of the pages *)
(* ===================================================================== *)

Module CornerFacts.
Import Store Routes Props.

(** X21. A register form that fails its validation, but on none of the
    five fields the page knows (first name, last name, password, username,
    password confirmation), gets a warning with an empty text; nothing
    else changes and the index page is rendered. *)
Theorem register_unknown_error_blank (sch : Schema)
    (gen : string -> string) (chk : string -> string -> bool)
    (len : string -> nat) (alnum : string -> bool)
    (form : IndexForm) (w : World) :
  String.eqb (request_method form) "POST" = true ->
  login_is_submitted (login form) && login_submit (login form) = false ->
  register_is_submitted (register form) && register_submit (register form)
  = true ->
  register_validate_on_submit (register form) = false ->
  (forall key,
     In key ["first_name"; "last_name"; "password"; "username";
             "confirm_password"] ->
     has_error key (register_errors (register form)) = false) ->
  index sch gen chk len alnum form w
  = (flashed w "" "warning", Returned (Render "index.html.j2" IndexView)).
Proof.
  intros Hm Hl Hs Hv Hk.
  unfold index, index_body, bind, flash, ret. rewrite Hm, Hl, Hs, Hv.
  unfold register_error_messages.
  rewrite !Hk; [reflexivity | | | | |]; simpl; auto 6.
Qed.

(** X22. Who sees whose posts is mutual although the list of friends is
    not: the feed of [b] takes the posts of [a] exactly when the feed of
    [a] takes the posts of [b], while with the one edge a -> b between two
    stored users [get_friends] lists [b] for [a] and does not list [a] for
    [b]. *)
Theorem feed_mutual_friends_directed (d : DB) (a b : User) :
  feed_where d (id b) (id a) = feed_where d (id a) (id b)
  /\ (In a (Users d) -> In b (Users d) -> id a <> id b ->
      In (mkFriend (id a) (id b)) (Friends d) ->
      ~ In (mkFriend (id b) (id a)) (Friends d) ->
      In b (get_friends d (id a))
      /\ ~ In a (get_friends d (id b))
      /\ feed_where d (id b) (id a) = true).
Proof.
  assert (Hsym : forall x y, connected d x y -> connected d y x).
  { unfold connected. intros x y [H|[H|H]]; auto. }
  split.
  - apply eq_true_iff_eq. rewrite !StoreFacts.feed_where_connected.
    split; apply Hsym.
  - intros Ha Hb Hne Hab Hba. split; [|split].
    + apply QueryFacts.get_friends_In. auto.
    + intros H. apply QueryFacts.get_friends_In in H. tauto.
    + apply StoreFacts.feed_where_connected. right. now left.
Qed.

(** X23. On a valid post that carries a file with a name, the first
    thing [stream] does is the write of the file, under the name the
    client gave: when the write raises, the request ends with that
    exception, whether the user exists or not, and stores no post; when
    the write returns and the username has no user row, the request ends
    with [TypeError] with the file written. A file part with an empty
    name is not written: the file system is not asked. *)
Theorem stream_saves_upload_first (write : Disk) (w : World)
    (uname text : string) (fs : FileStorage) :
  let out := stream write uname (mkPostForm true text (Some fs)) w in
  (filename fs <> "" ->
   (forall e, snd (write fs (db w)) = Raised e ->
      out = (written w fs (fst (write fs (db w))) false, Raised e))
   /\ (get_user (db w) uname = None ->
       snd (write fs (db w)) = Returned tt ->
       out = (written w fs (fst (write fs (db w))) true, Raised TypeError)))
  /\ (filename fs = "" ->
      forall other : Disk,
        out = stream other uname (mkPostForm true text (Some fs)) w).
Proof.
  cbn zeta. rewrite !RouteFacts.stream_submit_file. cbn zeta. split.
  - intros Hn. apply String.eqb_neq in Hn. rewrite Hn. cbn [negb].
    split.
    + intros e He. now rewrite He.
    + intros Hu Hr. now rewrite Hr, Hu.
  - intros He other. rewrite RouteFacts.stream_submit_file. cbn zeta.
    rewrite He. reflexivity.
Qed.

End CornerFacts.

(* ===================================================================== *)
(** ** The code on the small store *)
(* ===================================================================== *)

Module Runs.
Import Store Routes Props Demo.

Lemma demo_store_ok : store_ok demo_db.
Proof.
  split.
  - simpl. repeat constructor; simpl; intuition discriminate.
  - intros p Hp. simpl in Hp.
    destruct Hp as [<-|[<-|[<-|[<-|[]]]]]; simpl; auto.
Defined.

(** Alice's feed holds her two posts and Bob's, and not Carol's. *)
Lemma get_posts_feed_witness :
  store_ok demo_db
  /\ forall p, In p (map row_post (get_posts demo_db 1))
               <-> In p (Posts demo_db) /\ connected demo_db 1 (p_u_id p).
Proof.
  split; [exact demo_store_ok|].
  exact (proj1 (StoreFacts.get_posts_feed demo_db 1 demo_store_ok)).
Defined.

(** Two of the posts in Alice's feed were made in the same second: the
    feed does not descend strictly. *)
Lemma get_posts_tie_not_strict :
  map (fun r => p_creation_time (row_post r)) (get_posts demo_db 1)
  = [20; 20; 10]
  /\ ~ StronglySorted (strict_desc (fun r => p_creation_time (row_post r)))
        (get_posts demo_db 1).
Proof.
  split; [reflexivity|]. intros H.
  change (get_posts demo_db 1)
    with [mkFeedRow (mkPost 2 2 "hello" "cat.png" 20) bob 1;
          mkFeedRow (mkPost 4 1 "again" "" 20) alice 0;
          mkFeedRow (mkPost 1 1 "first" "" 10) alice 0] in H.
  inversion H as [|r l Hs Hall]; subst.
  inversion Hall as [|r' l' Hlt Hrest]; subst.
  unfold strict_desc in Hlt. simpl in Hlt. lia.
Qed.

(** Bob adds Alice although the edge alice -> bob is there already. *)
Lemma friends_edge_iff_witness :
  get_user demo_db "bob" = Some bob
  /\ Friends (db (fst (friends "bob" (mkFriendsForm true "alice")
                         demo_world)))
     = [mkFriend 1 2; mkFriend 2 1].
Proof.
  split; [reflexivity|].
  apply (proj2 (proj2 (proj2
           (RouteFacts.friends_edge_iff demo_world "bob"
              (mkFriendsForm true "alice") bob eq_refl eq_refl))) alice).
  - reflexivity.
  - discriminate.
  - simpl. now left.
  - simpl. intros [H|[]]. discriminate H.
Defined.

(** Registering [alice] once more, with the schema of the spec. *)
Lemma register_duplicate_raises_witness :
  get_user demo_db "alice" = Some alice
  /\ index spec_schema demo_hash demo_check String.length ascii_isalnum
       (register_as "alice" "pw") demo_world
     = (demo_world, Raised IntegrityError).
Proof.
  split; [reflexivity|].
  exact (RouteFacts.register_duplicate_raises spec_schema demo_hash
           demo_check String.length ascii_isalnum (register_as "alice" "pw")
           demo_world alice eq_refl eq_refl eq_refl).
Defined.

(** Alice posts [hi] in a request without an image part. *)
Lemma stream_post_without_image_raises_witness :
  get_user demo_db "alice" = Some alice
  /\ stream good_disk "alice" (mkPostForm true "hi" None) demo_world
     = (demo_world, Raised AttributeError).
Proof.
  split; [reflexivity|].
  exact (RouteFacts.stream_post_without_image_raises good_disk demo_world
           "alice" "hi" alice eq_refl).
Defined.

(** A login as the unknown [mallory] and a login as [alice] with a wrong
    password. *)
Lemma login_rejections_agree_witness :
  get_user demo_db "mallory" = None
  /\ get_user demo_db "alice" = Some alice
  /\ index spec_schema demo_hash demo_check String.length ascii_isalnum
       (login_as "mallory" "guess") demo_world
     = index spec_schema demo_hash demo_check String.length ascii_isalnum
         (login_as "alice" "wrong") demo_world.
Proof.
  split; [reflexivity|]. split; [reflexivity|].
  exact (proj1 (RouteFacts.login_rejections_agree spec_schema demo_hash
                  demo_check String.length ascii_isalnum
                  (login_as "mallory" "guess") (login_as "alice" "wrong")
                  demo_world alice
                  eq_refl eq_refl eq_refl eq_refl eq_refl)).
Defined.

(** No user is called [ghost]; a post to the stream of that name, with a
    file, on a disk without the uploads folder, ends with the exception of
    the write, and the friends page of that name with the [TypeError]. *)
Lemma missing_user_dereference_witness :
  get_user demo_db "ghost" = None
  /\ stream no_folder "ghost"
       (mkPostForm true "hi" (Some (mkFileStorage "x.png"))) demo_world
     = (demo_world, Raised OSError)
  /\ forall form, friends "ghost" form demo_world
                  = (demo_world, Raised TypeError).
Proof.
  split; [reflexivity|]. split.
  - exact (proj1 (proj2 (RouteFacts.missing_user_dereference no_folder
                           demo_world "ghost" eq_refl))
             "hi" (mkFileStorage "x.png") eq_refl).
  - exact (proj1 (proj2 (proj2 (RouteFacts.missing_user_dereference
                                  no_folder demo_world "ghost" eq_refl)))).
Defined.

(** The comments page of [ghost], opened without a submission, is
    rendered: not every request to that route fails on a missing user. *)
Lemma comments_view_missing_user_renders :
  get_user demo_db "ghost" = None
  /\ comments "ghost" 1 (mkCommentsForm false "") demo_world
     = (demo_world,
        Returned (Render "comments.html.j2"
                    (CommentsView "ghost"
                       (Some (mkPost 1 1 "first" "" 10, alice)) [])))
  /\ snd (comments "ghost" 1 (mkCommentsForm false "") demo_world)
     <> Raised TypeError.
Proof.
  split; [reflexivity|]. split; [reflexivity|]. discriminate.
Qed.

(** The profile page of [ghost], with a valid submission. *)
Lemma profile_missing_user_completes_witness :
  get_user demo_db "ghost" = None
  /\ profile "ghost" (mkProfileForm true "a" "b" "c" "d" "e" "f")
       demo_world
     = (demo_world, Returned (Redirect "profile" (Some "ghost"))).
Proof.
  split; [reflexivity|].
  exact (proj1 (RouteFacts.profile_missing_user_completes good_disk
                  demo_world "ghost"
                  (mkProfileForm true "a" "b" "c" "d" "e" "f") eq_refl)).
Defined.

Lemma update_profile_sanitizes_witness :
  In alice_updated
    (Users (fst (update_profile demo_db "alice" "R&D" "<none>" "Jazz"
                   "Alien" "Norway" "<1990>")))
  /\ education alice_updated = Some (Html.escape "R&D")
  /\ birthday alice_updated = Some "<1990>".
Proof.
  split; [simpl; now left|].
  pose proof (WriteFacts.update_profile_sanitizes demo_db "alice" "R&D"
                "<none>" "Jazz" "Alien" "Norway" "<1990>" alice_updated
                (or_introl eq_refl) eq_refl) as H.
  split; [exact (proj1 H) | exact (proj2 (proj2 (proj2 (proj2 (proj2 H)))))].
Defined.

(** A birthday with angle brackets is stored with its angle brackets: the
    birthday is not among the fields [update_profile] escapes. *)
Lemma update_profile_birthday_not_escaped :
  exists r,
    get_user (fst (update_profile demo_db "alice" "R&D" "<none>" "Jazz"
                     "Alien" "Norway" "<1990>")) "alice" = Some r
    /\ Html.has_markup "<1990>" = true
    /\ birthday r = Some "<1990>"
    /\ birthday r <> Some (Html.escape "<1990>").
Proof.
  exists alice_updated. split; [reflexivity|]. split; [reflexivity|].
  split; [reflexivity | discriminate].
Qed.

Lemma update_profile_frame_witness :
  get_user demo_db "alice" = Some alice
  /\ get_user (fst (update_profile demo_db "alice" "R&D" "<none>" "Jazz"
                      "Alien" "Norway" "<1990>")) "alice"
     = Some alice_updated
  /\ nth_error (Users (fst (update_profile demo_db "alice" "R&D" "<none>"
                              "Jazz" "Alien" "Norway" "<1990>"))) 1
     = Some bob.
Proof.
  pose proof (WriteFacts.update_profile_frame demo_db "alice" "R&D"
                "<none>" "Jazz" "Alien" "Norway" "<1990>" alice eq_refl)
    as H.
  split; [reflexivity|]. split.
  - exact (proj2 (proj2 (proj2 (proj2 (proj2 H))))).
  - apply (proj1 H 1%nat bob); [reflexivity | discriminate].
Defined.

(** An education with an ampersand is fetched in its escaped form, not as
    it was submitted. *)
Lemma update_profile_education_not_exact :
  exists r,
    get_user (fst (update_profile demo_db "alice" "R&D" "<none>" "Jazz"
                     "Alien" "Norway" "<1990>")) "alice" = Some r
    /\ education r = Some "R&amp;D"
    /\ education r <> Some "R&D".
Proof.
  exists alice_updated. split; [reflexivity|].
  split; [reflexivity | discriminate].
Qed.

End Runs.

(* ===================================================================== *)
(** ** More runs on the small store *)
(* ===================================================================== *)

Module MoreRuns.
Import Store Routes Props Demo.

Lemma demo_keys_ok : keys_ok demo_db.
Proof.
  split; [exact Runs.demo_store_ok|].
  simpl. repeat constructor; simpl; intuition discriminate.
Defined.

Lemma demo_usernames_unique : usernames_unique demo_db.
Proof.
  unfold usernames_unique. simpl.
  repeat constructor; simpl; intuition discriminate.
Defined.

Lemma get_user_key_witness :
  get_user demo_db "alice" = Some alice
  /\ username alice = Html.escape "alice".
Proof.
  split; [reflexivity|].
  exact (proj1 (proj2 (UserFacts.get_user_key demo_db "alice" alice
                         eq_refl))).
Defined.

Lemma create_user_then_get_user_witness :
  get_user demo_db "dave" = None
  /\ exists d', create_user spec_schema demo_db "dave" "Dave" "Doe" "hash"
                = Returned (d', 1).
Proof.
  split; [reflexivity|]. eexists.
  exact (proj1 (UserFacts.create_user_then_get_user spec_schema demo_db
                  "dave" "Dave" "Doe" "hash" eq_refl)).
Defined.

Lemma good_disk_leaves_store : leaves_store good_disk.
Proof. intros fs d. reflexivity. Defined.

Lemma requests_keep_keys_witness :
  keys_ok demo_db /\ usernames_unique demo_db
  /\ forall form,
       keys_ok (db (fst (stream good_disk "alice" form demo_world)))
       /\ usernames_unique
            (db (fst (stream good_disk "alice" form demo_world))).
Proof.
  split; [exact demo_keys_ok|]. split; [exact demo_usernames_unique|].
  exact (proj1 (proj2 (RoundTrips.requests_keep_keys spec_schema demo_hash
                         demo_check String.length ascii_isalnum good_disk
                         demo_world "alice" 1 eq_refl demo_keys_ok
                         demo_usernames_unique))
           good_disk_leaves_store).
Defined.

Lemma update_profile_rowcount_witness :
  usernames_unique demo_db
  /\ snd (update_profile demo_db "alice" "a" "b" "c" "d" "e" "f") = 1.
Proof.
  split; [exact demo_usernames_unique|].
  exact (proj2 (UserFacts.update_profile_rowcount demo_db "alice" "a" "b"
                  "c" "d" "e" "f") demo_usernames_unique alice eq_refl).
Defined.

Lemma get_post_by_id_witness :
  keys_ok demo_db
  /\ int64 2 = true
  /\ get_post demo_db 2
     = Returned (Some (mkPost 2 2 "hello" "cat.png" 20, bob)).
Proof.
  split; [exact demo_keys_ok|]. split; [reflexivity|].
  apply (proj1 (proj2 (proj2 (QueryFacts.get_post_by_id demo_db 2))
                  demo_keys_ok eq_refl)).
  - simpl. auto.
  - reflexivity.
  - simpl. auto.
  - reflexivity.
Defined.

(** Alice comments under the id 99, which no post has. *)
Lemma comments_submit_thread_witness :
  get_user demo_db "alice" = Some alice
  /\ get_post demo_db 99 = Returned None
  /\ In (mkComment 2 99 1 "&lt;3" 100, alice)
       (get_comments
          (db (fst (comments "alice" 99 (mkCommentsForm true "<3")
                      demo_world)))
          99).
Proof.
  split; [reflexivity|]. split; [reflexivity|].
  pose proof (RoundTrips.comments_submit_thread demo_world "alice" 99
                (mkCommentsForm true "<3") alice eq_refl eq_refl) as H.
  cbv zeta in H.
  assert (E : int64 99 = true) by reflexivity.
  rewrite E in H. destruct H as [post [_ [Hrun Hin]]].
  rewrite Hrun. exact Hin.
Defined.

Lemma create_comment_counts_witness :
  1 <> 2
  /\ get_comments (after (create_comment 100 demo_db 2 3 "hm") demo_db) 1
     = get_comments demo_db 1.
Proof.
  assert (H : 1 <> 2) by discriminate.
  split; [exact H|].
  exact (proj2 (QueryFacts.create_comment_counts 100 demo_db 2 3 "hm") 1 H).
Defined.

Lemma friends_add_listed_witness :
  get_user demo_db "bob" = Some bob
  /\ exists listed,
       snd (friends "bob" (mkFriendsForm true "alice") demo_world)
       = Returned (Render "friends.html.j2" (FriendsView "bob" listed))
       /\ Permutation listed [alice].
Proof.
  split; [reflexivity|].
  apply (RoundTrips.friends_add_listed demo_world "bob"
           (mkFriendsForm true "alice") bob alice).
  - exact (proj1 Runs.demo_store_ok).
  - reflexivity.
  - reflexivity.
  - split; [reflexivity|]. split; [discriminate|].
    simpl. intros [H|[]]. discriminate H.
Defined.

Lemma views_change_nothing_witness :
  fst (stream no_folder "alice" (mkPostForm false "" None) demo_world)
  = demo_world
  /\ fst (friends "ghost" (mkFriendsForm false "") demo_world) = demo_world.
Proof.
  pose proof (EffectFacts.views_change_nothing spec_schema demo_hash
                demo_check String.length ascii_isalnum no_folder demo_world
                "alice" 1 (mkIndexForm "GET" no_login no_register)
                (mkPostForm false "" None) (mkCommentsForm false "")
                (mkFriendsForm false "")
                (mkProfileForm false "" "" "" "" "" "")
                eq_refl eq_refl eq_refl eq_refl eq_refl) as H.
  pose proof (EffectFacts.views_change_nothing spec_schema demo_hash
                demo_check String.length ascii_isalnum no_folder demo_world
                "ghost" 1 (mkIndexForm "GET" no_login no_register)
                (mkPostForm false "" None) (mkCommentsForm false "")
                (mkFriendsForm false "")
                (mkProfileForm false "" "" "" "" "" "")
                eq_refl eq_refl eq_refl eq_refl eq_refl) as H'.
  split; [exact (proj1 (proj2 H))|].
  exact (proj1 (proj2 (proj2 (proj2 H')))).
Defined.

Lemma index_writes_only_on_register_witness :
  register_request (login_as "alice" "secret") = false
  /\ db (fst (index spec_schema demo_hash demo_check String.length
                ascii_isalnum (login_as "alice" "secret") demo_world))
     = demo_db.
Proof.
  split; [reflexivity|].
  exact (proj1 (EffectFacts.index_writes_only_on_register spec_schema
                  demo_hash demo_check String.length ascii_isalnum
                  (login_as "alice" "secret") demo_world eq_refl)).
Defined.

Lemma register_then_login_witness :
  get_user demo_db "dave" = None
  /\ snd (index spec_schema demo_hash demo_check String.length
            ascii_isalnum (login_as "dave" "pw")
            (fst (index spec_schema demo_hash demo_check String.length
                    ascii_isalnum (register_as "dave" "pw") demo_world)))
     = Returned (Redirect "stream" (Some "dave")).
Proof.
  split; [reflexivity|].
  pose proof (RoundTrips.register_then_login spec_schema demo_hash
                demo_check String.length ascii_isalnum demo_world
                (register_as "dave" "pw") (login_as "dave" "pw")
                eq_refl eq_refl eq_refl eq_refl)
    as [_ H].
  rewrite H. reflexivity.
Defined.

Lemma demo_posts_older :
  forall p, In p (Posts demo_db) -> p_creation_time p < clock demo_world.
Proof.
  intros p Hp. simpl in Hp.
  destruct Hp as [<-|[<-|[<-|[<-|[]]]]]; reflexivity.
Defined.

Lemma stream_post_heads_feed_witness :
  get_user demo_db "alice" = Some alice
  /\ good_disk (mkFileStorage "me.png") demo_db = (demo_db, Returned tt)
  /\ exists rest,
       snd (stream good_disk "alice" (mkPostForm false "" None)
              (fst (stream good_disk "alice"
                      (mkPostForm true "<hi>"
                         (Some (mkFileStorage "me.png")))
                      demo_world)))
       = Returned (Render "stream.html.j2"
                     (StreamView "alice"
                        (mkFeedRow (mkPost 5 1 "&lt;hi&gt;" "me.png" 100)
                           alice 0
                         :: rest))).
Proof.
  split; [reflexivity|]. split; [reflexivity|].
  destruct (proj2 (RoundTrips.stream_post_heads_feed good_disk demo_world
                     "alice" "<hi>" (mkFileStorage "me.png")
                     (mkPostForm false "" None) alice Runs.demo_store_ok
                     eq_refl (or_intror eq_refl) demo_posts_older eq_refl))
    as [rest [H _]].
  exists rest. exact H.
Defined.

Lemma requests_only_add_witness :
  leaves_store good_disk
  /\ forall form,
       extends demo_db (db (fst (stream good_disk "alice" form demo_world))).
Proof.
  split; [exact good_disk_leaves_store|].
  exact (proj1 (proj2 (EffectFacts.requests_only_add spec_schema demo_hash
                         demo_check String.length ascii_isalnum good_disk
                         demo_world "alice" 1))
           good_disk_leaves_store).
Defined.

Lemma init_app_memory_witness :
  Extension.is_memory (Some (Extension.Str ":memory:")) = true
  /\ exists s,
       Extension.new empty_disk 7 (Some demo_app)
         (Some (Extension.Str ":memory:")) None = Some s
       /\ Extension.ended s = Extension.Failed Extension.ValueError.
Proof.
  split; [reflexivity|].
  destruct (ExtensionFacts.init_app_memory empty_disk 7 demo_app []
              (Some (Extension.Str ":memory:")) None eq_refl eq_refl
              (or_introl eq_refl)) as [s [Hs [He _]]].
  exists s. split; [exact Hs | exact He].
Defined.


Lemma bad_token_no_known_error :
  forall key,
    In key ["first_name"; "last_name"; "password"; "username";
            "confirm_password"] ->
    has_error key (register_errors (register bad_token)) = false.
Proof.
  intros key H. simpl in H.
  destruct H as [<-|[<-|[<-|[<-|[<-|[]]]]]]; reflexivity.
Defined.

Lemma register_unknown_error_blank_witness :
  register_validate_on_submit (register bad_token) = false
  /\ index spec_schema demo_hash demo_check String.length ascii_isalnum
       bad_token demo_world
     = (flashed demo_world "" "warning",
        Returned (Render "index.html.j2" IndexView)).
Proof.
  split; [reflexivity|].
  exact (CornerFacts.register_unknown_error_blank spec_schema demo_hash
           demo_check String.length ascii_isalnum bad_token demo_world
           eq_refl eq_refl eq_refl eq_refl bad_token_no_known_error).
Defined.

Lemma feed_mutual_friends_directed_witness :
  In (mkFriend 1 2) (Friends demo_db)
  /\ In bob (get_friends demo_db 1)
  /\ ~ In alice (get_friends demo_db 2)
  /\ feed_where demo_db 2 1 = true.
Proof.
  assert (Hab : In (mkFriend 1 2) (Friends demo_db)) by (simpl; auto).
  split; [exact Hab|].
  apply (proj2 (CornerFacts.feed_mutual_friends_directed demo_db alice bob)).
  - simpl. auto.
  - simpl. auto.
  - discriminate.
  - exact Hab.
  - simpl. intros [H|[]]. discriminate H.
Defined.

(** A post with a file to the stream of [ghost]: on the disk without the
    uploads folder it ends with the exception of the write, on the good
    disk with the [TypeError], the file written. *)
Lemma stream_saves_upload_first_witness :
  get_user demo_db "ghost" = None
  /\ stream no_folder "ghost"
       (mkPostForm true "hi" (Some (mkFileStorage "x.png"))) demo_world
     = (demo_world, Raised OSError)
  /\ stream good_disk "ghost"
       (mkPostForm true "hi" (Some (mkFileStorage "x.png"))) demo_world
     = (mkWorld demo_db 100 [] ["x.png"], Raised TypeError).
Proof.
  assert (Hn : filename (mkFileStorage "x.png") <> "") by discriminate.
  split; [reflexivity|]. split.
  - exact (proj1 (proj1 (CornerFacts.stream_saves_upload_first no_folder
                           demo_world "ghost" "hi" (mkFileStorage "x.png"))
                    Hn) OSError eq_refl).
  - exact (proj2 (proj1 (CornerFacts.stream_saves_upload_first good_disk
                           demo_world "ghost" "hi" (mkFileStorage "x.png"))
                    Hn) eq_refl eq_refl).
Defined.

End MoreRuns.
